(** * UserAssociations: room membership coordination of the chat service

    A shallow embedding of [src/UserAssociations.js].  The class talks to
    four collaborators ([this.state], [this.userState], [this.transport],
    [this.clusterBus]) and to the server's event emitter; every method is a
    chain of promises.  Here a promise-returning method is a function from
    the world (the private state of each collaborator and a clock) to an
    outcome: the settled result, the new world and the events the call
    made visible, in order. *)

From Stdlib Require Import String List ZArith NArith Bool Lia Permutation.
Import ListNotations.
Local Open Scope string_scope.
Local Open Scope list_scope.

Set Implicit Arguments.

(** ** Values *)

(** What a promise can be rejected with. *)
Inductive error : Type :=
| ChatServiceError (name : string) (arg : string)
| TimeoutError
| Rejection (reason : string).

Inductive result (A : Type) : Type :=
| Ok (a : A)
| Err (e : error).
Arguments Ok {A} a.
Arguments Err {A} e.

(** A [Room] object is known by the name it was looked up under or by the
    name the store gave it. *)
Record Room : Type := { room_name : string }.

(** The object literal handed to [consistencyFailure]; an absent key is
    [None]. *)
Record operationInfo : Type := {
  info_roomName : option string;
  info_id : option string;
  info_opType : string;
  info_userName : option string }.

(** What [room.getNotificationsInfo] resolves with; [{}] has no key. *)
Record notificationsInfo : Type := {
  enableUserlistUpdates : option bool }.

Definition emptyObject : notificationsInfo :=
  {| enableUserlistUpdates := None |}.

(** JavaScript truthiness of the values tested in the source. *)
Definition truthyZ (n : Z) : bool := negb (n =? 0)%Z.

Definition truthy (n : option Z) : bool :=
  match n with Some k => truthyZ k | None => false end.

(** [x || d] for a value that is either an object or [undefined]. *)
Definition orDefault {A} (x : option A) (d : A) : A :=
  match x with Some a => a | None => d end.

(** [nconnected || 0] *)
Definition orZero (x : option Z) : Z :=
  match x with Some n => if truthyZ n then n else 0%Z | None => 0%Z end.

(** ** Events *)

(** Calls made on the collaborators. *)
Inductive call : Type :=
| C_state_getRoom (roomName : string)
| C_state_addSocket (id userName : string)
| C_state_removeSocket (id : string)
| C_state_getUser (userName : string)
| C_room_join (room : Room) (userName : string)
| C_room_leave (room : Room) (userName : string)
| C_room_getNotificationsInfo (room : Room)
| C_roomState_userlistUpdatesGet (room : Room)
| C_userState_lockToRoom (roomName : string) (ttl : N)
| C_lock_dispose (lock : string)
| C_userState_addSocketToRoom (id roomName : string)
| C_userState_removeSocketFromRoom (id roomName : string)
| C_userState_addSocket (id instanceUID : string)
| C_userState_removeSocket (id : string)
| C_userState_removeAllSocketsFromRoom (roomName : string)
| C_transport_joinChannel (id channel : string)
| C_transport_leaveChannel (id channel : string)
| C_bus_emit (name id channel : string)
| C_eventToPromise (name : string).

(** Everything an execution makes visible: collaborator calls,
    [this.server.emit], and the report and echo methods mixed in from
    [UserReports]. *)
Inductive event : Type :=
| Call (c : call)
| ServerEmit (name : string) (e : error) (info : operationInfo)
| UserJoinRoomReport (userName roomName : string)
| SocketJoinEcho (id roomName : string) (njoined : Z) (isLocalCall : bool)
| SocketLeftEcho (id roomName : string) (njoined : option Z)
                 (isLocalCall : option bool)
| UserLeftRoomReport (userName roomName : string) (enable : option bool)
| SocketDisconnectEcho (id : string) (nconnected : Z)
| UserRemovedReport (userName roomName : string) (enable : option bool).

(** A promise that may stay pending for ever: it settles [after] some
    time, or never. Only the bus acknowledgement is of this kind. *)
Inductive settle (A : Type) : Type :=
| Settled (after : N) (r : result A)
| Pending.
Arguments Settled {A} after r.
Arguments Pending {A}.

(** ** The object and its collaborators *)

Section Embedding.

Context {DS US TS BS : Type}.

(** [DS], [US], [TS] and [BS] are the private states of [this.state],
    [this.userState], [this.transport] and [this.clusterBus]. Each method
    of a collaborator settles with a value or an error and may change its
    own state. *)
Record UserAssociations : Type := {
  userName : string;
  lockTTL : N;
  busAckTimeout : N;
  instanceUID : string;
  (* this.state and the rooms it hands out *)
  state_getRoom : string -> DS -> result Room * DS;
  state_addSocket : string -> string -> DS -> result unit * DS;
  state_removeSocket : string -> DS -> result unit * DS;
  room_join : Room -> string -> DS -> result unit * DS;
  room_leave : Room -> string -> DS -> result unit * DS;
  room_getNotificationsInfo : Room -> DS -> result notificationsInfo * DS;
  roomState_userlistUpdatesGet : Room -> DS -> result bool * DS;
  (* this.userState *)
  userState_lockToRoom : string -> N -> US -> result string * US;
  lock_dispose : string -> US -> US;
  userState_addSocketToRoom : string -> string -> US -> result (Z * bool) * US;
  userState_removeSocketFromRoom :
    string -> string -> US -> result (Z * bool) * US;
  userState_addSocket : string -> string -> US -> result Z * US;
  userState_removeSocket :
    string -> US ->
    result (option (list string) * option (list Z) * option Z) * US;
  userState_removeAllSocketsFromRoom :
    string -> US -> result (list string) * US;
  (* this.transport *)
  transport_joinChannel : string -> string -> TS -> result unit * TS;
  transport_leaveChannel : string -> string -> TS -> result unit * TS;
  transport_getSocket : string -> TS -> bool;
  (* this.clusterBus *)
  bus_emit : string -> string -> string -> BS -> result unit * BS;
  bus_makeSocketRoomLeftName : string -> string -> string;
  bus_eventToPromise : string -> BS -> settle unit * BS;
  (* the order in which Promise.map gets to the items of an array of the
     given length *)
  mapOrder : nat -> list nat }.

Record world : Type := {
  wS : DS; wU : US; wT : TS; wB : BS;
  clock : N }.

Record outcome (A : Type) : Type := Out {
  res : result A;
  st : world;
  evs : list event }.

Definition M (A : Type) : Type := world -> outcome A.

(** ** Promise combinators *)

Definition ret {A} (a : A) : M A := fun w => Out (Ok a) w [].

Definition throw {A} (e : error) : M A := fun w => Out (Err e) w [].

Definition bind {A C} (m : M A) (k : A -> M C) : M C := fun w =>
  match m w with
  | Out (Ok a) w1 l1 =>
      match k a w1 with Out r w2 l2 => Out r w2 (l1 ++ l2) end
  | Out (Err e) w1 l1 => Out (Err e) w1 l1
  end.

(** [p.catch(h)] *)
Definition catch {A} (m : M A) (h : error -> M A) : M A := fun w =>
  match m w with
  | Out (Ok a) w1 l1 => Out (Ok a) w1 l1
  | Out (Err e) w1 l1 =>
      match h e w1 with Out r w2 l2 => Out r w2 (l1 ++ l2) end
  end.

(** [p.catchReturn(v)] *)
Definition catchReturn {A} (m : M A) (v : A) : M A :=
  catch m (fun _ => ret v).

Definition emit (ev : event) : M unit := fun w => Out (Ok tt) w [ev].

(** [Promise.all([a, b, c])]: the three calls are made one after the other
    while the array is built, whatever becomes of the earlier ones; the
    result is the triple, or the first rejection. *)
Definition Promise_all3 {A1 A2 A3} (a : M A1) (b : M A2) (c : M A3)
  : M (A1 * A2 * A3) := fun w =>
  match a w with Out ra w1 l1 =>
  match b w1 with Out rb w2 l2 =>
  match c w2 with Out rc w3 l3 =>
    Out (match ra, rb, rc with
         | Ok x, Ok y, Ok z => Ok (x, y, z)
         | Err e, _, _ => Err e
         | _, Err e, _ => Err e
         | _, _, Err e => Err e
         end) w3 (l1 ++ l2 ++ l3)
  end end end.


(** [p.reflect()]-like helper: settle [m] and hand its result on without
    rejecting. *)
Definition attempt {A} (m : M A) : M (result A) := fun w =>
  match m w with Out r w1 l1 => Out (Ok r) w1 l1 end.

Declare Scope promise_scope.
Delimit Scope promise_scope with promise.
Notation "x <- m ;; k" := (bind m (fun x => k))
  (at level 100, m at next level, right associativity) : promise_scope.
Notation "' p <- m ;; k" := (bind m (fun p => k))
  (at level 100, p pattern, m at next level, right associativity)
  : promise_scope.
Notation "m ;; k" := (bind m (fun _ => k))
  (at level 100, right associativity) : promise_scope.
Local Open Scope promise_scope.

Variable this : UserAssociations.

Definition firstError {C} (rs : list (nat * result C)) : option error :=
  List.fold_right
    (fun ir acc => match snd ir with Err e => Some e | Ok _ => acc end)
    None rs.

Definition inInputOrder {C} (n : nat) (rs : list (nat * result C)) : list C :=
  flat_map (fun i =>
    flat_map (fun ir =>
      match snd ir with
      | Ok c => if Nat.eqb (fst ir) i then [c] else []
      | Err _ => []
      end) rs) (seq 0 n).

(** The items of an array, each with its index, in the order in which
    [Promise.map] calls the mapper on them. *)
Definition scheduled {A} (items : list A) : list (nat * A) :=
  flat_map (fun i => match nth_error items i with
                     | Some a => [(i, a)]
                     | None => []
                     end) (mapOrder this (length items)).

Fixpoint settleEach {A C} (f : A -> nat -> M C) (l : list (nat * A))
  : M (list (nat * result C)) :=
  match l with
  | [] => ret []
  | ia :: l' =>
      r <- attempt (f (snd ia) (fst ia)) ;;
      rs <- settleEach f l' ;;
      ret ((fst ia, r) :: rs)
  end.

(** [Promise.map(items, f, { concurrency: asyncLimit })]. The mapper is
    run to its end on one item after the other, in the order [mapOrder]
    fixes; the results come back in the order of the input, or the first
    rejection does. *)
Definition Promise_map {A C} (items : list A) (f : A -> nat -> M C)
  : M (list C) :=
  rs <- settleEach f (scheduled items) ;;
  match firstError rs with
  | Some e => throw e
  | None => ret (inInputOrder (length items) rs)
  end.

(** *** Calls on the collaborators *)

Definition onState {A} (c : call) (op : DS -> result A * DS) : M A :=
  fun w =>
    Out (fst (op (wS w)))
        {| wS := snd (op (wS w)); wU := wU w; wT := wT w; wB := wB w;
           clock := clock w |}
        [Call c].

Definition onUserState {A} (c : call) (op : US -> result A * US) : M A :=
  fun w =>
    Out (fst (op (wU w)))
        {| wS := wS w; wU := snd (op (wU w)); wT := wT w; wB := wB w;
           clock := clock w |}
        [Call c].

Definition onTransport {A} (c : call) (op : TS -> result A * TS) : M A :=
  fun w =>
    Out (fst (op (wT w)))
        {| wS := wS w; wU := wU w; wT := snd (op (wT w)); wB := wB w;
           clock := clock w |}
        [Call c].

Definition onBus {A} (c : call) (op : BS -> result A * BS) : M A :=
  fun w =>
    Out (fst (op (wB w)))
        {| wS := wS w; wU := wU w; wT := wT w; wB := snd (op (wB w));
           clock := clock w |}
        [Call c].

Definition this_state_getRoom (roomName : string) : M Room :=
  onState (C_state_getRoom roomName) (state_getRoom this roomName).
Definition this_state_addSocket (id name : string) : M unit :=
  onState (C_state_addSocket id name) (state_addSocket this id name).
Definition this_state_removeSocket (id : string) : M unit :=
  onState (C_state_removeSocket id) (state_removeSocket this id).
Definition this_room_join (room : Room) (name : string) : M unit :=
  onState (C_room_join room name) (room_join this room name).
Definition this_room_leave (room : Room) (name : string) : M unit :=
  onState (C_room_leave room name) (room_leave this room name).
Definition this_room_getNotificationsInfo (room : Room)
  : M notificationsInfo :=
  onState (C_room_getNotificationsInfo room)
          (room_getNotificationsInfo this room).
Definition this_roomState_userlistUpdatesGet (room : Room) : M bool :=
  onState (C_roomState_userlistUpdatesGet room)
          (roomState_userlistUpdatesGet this room).

Definition this_userState_lockToRoom (roomName : string) (ttl : N)
  : M string :=
  onUserState (C_userState_lockToRoom roomName ttl)
              (userState_lockToRoom this roomName ttl).
Definition this_lock_dispose (lock : string) : M unit :=
  onUserState (C_lock_dispose lock)
              (fun u => (Ok tt, lock_dispose this lock u)).
Definition this_userState_addSocketToRoom (id roomName : string)
  : M (Z * bool) :=
  onUserState (C_userState_addSocketToRoom id roomName)
              (userState_addSocketToRoom this id roomName).
Definition this_userState_removeSocketFromRoom (id roomName : string)
  : M (Z * bool) :=
  onUserState (C_userState_removeSocketFromRoom id roomName)
              (userState_removeSocketFromRoom this id roomName).
Definition this_userState_addSocket (id uid : string) : M Z :=
  onUserState (C_userState_addSocket id uid)
              (userState_addSocket this id uid).
Definition this_userState_removeSocket (id : string)
  : M (option (list string) * option (list Z) * option Z) :=
  onUserState (C_userState_removeSocket id) (userState_removeSocket this id).
Definition this_userState_removeAllSocketsFromRoom (roomName : string)
  : M (list string) :=
  onUserState (C_userState_removeAllSocketsFromRoom roomName)
              (userState_removeAllSocketsFromRoom this roomName).

Definition this_transport_joinChannel (id channel : string) : M unit :=
  onTransport (C_transport_joinChannel id channel)
              (transport_joinChannel this id channel).
Definition this_transport_leaveChannel (id channel : string) : M unit :=
  onTransport (C_transport_leaveChannel id channel)
              (transport_leaveChannel this id channel).
(** [this.transport.getSocket(id)] is a plain lookup: it answers at once
    and changes nothing. *)
Definition this_transport_getSocket (id : string) : M bool :=
  fun w => Out (Ok (transport_getSocket this id (wT w))) w [].

Definition this_bus_emit (name id channel : string) : M unit :=
  onBus (C_bus_emit name id channel) (bus_emit this name id channel).

(** [Promise.using(lock, body)]: when the lock is not obtained the body
    does not run; when it is, the disposer runs once the body has
    settled, whichever way, and the body's result is the result. *)
Definition Promise_using {A} (lock : M string) (body : M A) : M A :=
  lk <- lock ;;
  r <- attempt body ;;
  this_lock_dispose lk ;;
  match r with Ok a => ret a | Err e => throw e end.

(** *** The acknowledgement wait *)

Definition advance (t : N) (w : world) : world :=
  {| wS := wS w; wU := wU w; wT := wT w; wB := wB w;
     clock := clock w + t |}.

(** A promise that may stay pending: what it settles with and when, the
    world after its synchronous part, and the events of that part. *)
Definition P (A : Type) : Type := world -> settle A * world * list event.

(** [eventToPromise(bus, name)] *)
Definition eventToPromise (name : string) : P unit := fun w =>
  (fst (bus_eventToPromise this name (wB w)),
   {| wS := wS w; wU := wU w; wT := wT w;
      wB := snd (bus_eventToPromise this name (wB w)); clock := clock w |},
   [Call (C_eventToPromise name)]).

(** [Promise.try(() => { sync; return wait })]: an exception of the
    synchronous part is a rejection there and then. *)
Definition Promise_try {A C} (sync : M A) (wait : P C) : P C := fun w =>
  match sync w with
  | Out (Ok _) w1 l1 =>
      match wait w1 with (s, w2, l2) => (s, w2, l1 ++ l2) end
  | Out (Err e) w1 l1 => (Settled 0 (Err e), w1, l1)
  end.

(** [p.timeout(ms)]: [p]'s own result if it settles before [ms] have
    passed, a [TimeoutError] at [ms] otherwise. *)
Definition Promise_timeout {A} (p : P A) (ms : N) : M A := fun w =>
  match p w with
  | (Settled t r, w1, l1) =>
      if (t <? ms)%N then Out r (advance t w1) l1
      else Out (Err TimeoutError) (advance ms w1) l1
  | (Pending, w1, l1) => Out (Err TimeoutError) (advance ms w1) l1
  end.

(** ** The report and echo methods *)

(** Modelled from the spec: the methods mixed in from [UserReports], which
    is not among the sources. The spec gives them as fire-and-forget
    notifications that the core never awaits; a call is recorded with its
    arguments and returns. *)
Definition userJoinRoomReport (name roomName : string) : M unit :=
  emit (UserJoinRoomReport name roomName).
Definition socketJoinEcho (id roomName : string) (njoined : Z)
                          (isLocalCall : bool) : M unit :=
  emit (SocketJoinEcho id roomName njoined isLocalCall).
Definition socketLeftEcho (id roomName : string) (njoined : option Z)
                          (isLocalCall : option bool) : M unit :=
  emit (SocketLeftEcho id roomName njoined isLocalCall).
Definition userLeftRoomReport (name roomName : string)
                              (enable : option bool) : M unit :=
  emit (UserLeftRoomReport name roomName enable).
Definition socketDisconnectEcho (id : string) (nconnected : Z) : M unit :=
  emit (SocketDisconnectEcho id nconnected).
Definition userRemovedReport (name roomName : string)
                             (enable : option bool) : M unit :=
  emit (UserRemovedReport name roomName enable).

(** ** The methods of [UserAssociations] *)

Definition consistencyFailure (e : error) (operationInfo : operationInfo)
  : M unit :=
  let operationInfo :=
    {| info_roomName := info_roomName operationInfo;
       info_id := info_id operationInfo;
       info_opType := info_opType operationInfo;
       info_userName := Some (userName this) |} in
  let name :=
    if (info_opType operationInfo =? "transportChannel")%string
    then "transportConsistencyFailure"
    else "storeConsistencyFailure" in
  emit (ServerEmit name e operationInfo).

Definition leaveChannel (id channel : string) : M unit :=
  catch (this_transport_leaveChannel id channel) (fun e =>
    let info := {| info_roomName := Some channel; info_id := Some id;
                   info_opType := "transportChannel";
                   info_userName := None |} in
    consistencyFailure e info).

Definition socketLeaveChannels (id : string) (channels : list string)
  : M (list unit) :=
  Promise_map channels (fun channel _ => leaveChannel id channel).

Definition leaveChannelMessage (id channel : string) : M unit :=
  catchReturn
    (Promise_timeout
       (Promise_try
          (this_bus_emit "roomLeaveSocket" id channel)
          (eventToPromise (bus_makeSocketRoomLeftName this id channel)))
       (busAckTimeout this))
    tt.

Definition channelLeaveSockets (channel : string) (ids : list string)
  : M (list unit) :=
  Promise_map ids (fun id _ => leaveChannelMessage id channel).

Definition leaveRoom (roomName : string) : M unit :=
  catchReturn
    (room <- this_state_getRoom roomName ;;
     catch (this_room_leave room (userName this)) (fun e =>
       consistencyFailure e
         {| info_roomName := Some roomName; info_id := None;
            info_opType := "roomUserlist"; info_userName := None |}))
    tt.

(** [.spread(njoined => ...)] looks at the first element only, and the
    handler's [[1]] has no other; [.thenThrow(error)] ends every path in a
    rejection, so the method fits any result type. *)
Definition rollbackRoomJoin {A} (e : error) (roomName id : string) : M A :=
  njoined <- catch
      (r <- this_userState_removeSocketFromRoom id roomName ;; ret (fst r))
      (fun e' =>
         consistencyFailure e'
           {| info_roomName := Some roomName; info_id := None;
              info_opType := "userRooms"; info_userName := None |} ;;
         ret 1%Z) ;;
  (if negb (truthyZ njoined) then leaveRoom roomName else ret tt) ;;
  throw e.

Definition getNotifySettings (roomName : string) : M notificationsInfo :=
  catchReturn
    (room <- this_state_getRoom roomName ;;
     this_room_getNotificationsInfo room)
    emptyObject.

(** The [Promise.all] of [joinSocketToRoom]. *)
Definition joinStep3 (room : Room) (id roomName : string)
  : M (bool * (Z * bool) * unit) :=
  Promise_all3
    (this_roomState_userlistUpdatesGet room)
    (this_userState_addSocketToRoom id roomName)
    (this_transport_joinChannel id roomName).

Definition joinSocketToRoom (id roomName : string) (isLocalCall : bool)
  : M Z :=
  let lock := this_userState_lockToRoom roomName (lockTTL this) in
  Promise_using lock
    (room <- this_state_getRoom roomName ;;
     this_room_join room (userName this) ;;
     catch
       ('(enableUpdates, (njoined, hasChanged), _) <-
            joinStep3 room id roomName ;;
        (if hasChanged then
           (if (njoined =? 1)%Z && enableUpdates
            then userJoinRoomReport (userName this) roomName
            else ret tt) ;;
           socketJoinEcho id roomName njoined isLocalCall
         else ret tt) ;;
        ret njoined)
       (fun e => rollbackRoomJoin e roomName id)).

Definition leaveSocketFromRoom (id roomName : string) (isLocalCall : bool)
  : M Z :=
  let lock := this_userState_lockToRoom roomName (lockTTL this) in
  Promise_using lock
    ('(info, (njoined, hasChanged), _) <-
        Promise_all3
          (getNotifySettings roomName)
          (this_userState_removeSocketFromRoom id roomName)
          (leaveChannel id roomName) ;;
     (if (njoined =? 0)%Z then leaveRoom roomName else ret tt) ;;
     (if hasChanged then
        socketLeftEcho id roomName (Some njoined) (Some isLocalCall) ;;
        userLeftRoomReport (userName this) roomName
                           (enableUserlistUpdates info)
      else ret tt) ;;
     ret njoined).

(** The mapper of the [Promise.map] in [removeUserSocket]. *)
Definition roomCleanup (id : string) (joinedSockets : list Z)
                       (roomName : string) (idx : nat) : M unit :=
  let njoined := nth_error joinedSockets idx in
  socketLeftEcho id roomName njoined None ;;
  if truthy njoined then ret tt
  else
    leaveRoom roomName ;;
    info <- getNotifySettings roomName ;;
    userLeftRoomReport (userName this) roomName (enableUserlistUpdates info).

(** [run(this, function* ...)] of [utils] runs the generator as a
    coroutine bound to [this]; what [state.removeSocket] resolves with is
    not looked at. *)
Definition removeUserSocket (id : string) : M unit :=
  catch
    ('(roomsRemoved, joinedSockets, nconnected) <-
        this_userState_removeSocket id ;;
     let roomsRemoved := orDefault roomsRemoved [] in
     let joinedSockets := orDefault joinedSockets [] in
     let nconnected := orZero nconnected in
     socketLeaveChannels id roomsRemoved ;;
     Promise_map roomsRemoved (roomCleanup id joinedSockets) ;;
     socketDisconnectEcho id nconnected ;;
     this_state_removeSocket id)
    (fun e =>
       let info := {| info_roomName := None; info_id := Some id;
                      info_opType := "userSockets";
                      info_userName := None |} in
       consistencyFailure e info).

Definition addUserSocket (id : string) : M Z :=
  this_state_addSocket id (userName this) ;;
  nconnected <- this_userState_addSocket id (instanceUID this) ;;
  live <- this_transport_getSocket id ;;
  if negb live then
    removeUserSocket id ;;
    throw (ChatServiceError "noSocket" "connection")
  else ret nconnected.

(** The handler's [undefined] is [None]. *)
Definition removeUserSocketsFromRoom (roomName : string)
  : M (option (list string)) :=
  catch
    (ids <- this_userState_removeAllSocketsFromRoom roomName ;;
     ret (Some ids))
    (fun e =>
       let info := {| info_roomName := Some roomName; info_id := None;
                      info_opType := "roomUserlist";
                      info_userName := None |} in
       consistencyFailure e info ;; ret None).

Definition removeFromRoom (roomName : string) : M unit :=
  let lock := this_userState_lockToRoom roomName (lockTTL this) in
  Promise_using lock
    (removedSockets <- removeUserSocketsFromRoom roomName ;;
     let removedSockets := orDefault removedSockets [] in
     channelLeaveSockets roomName removedSockets ;;
     (if negb (Nat.eqb (length removedSockets) 0) then
        info <- getNotifySettings roomName ;;
        userRemovedReport (userName this) roomName
                          (enableUserlistUpdates info)
      else ret tt) ;;
     leaveRoom roomName).

End Embedding.

(** ** A reference store, transport and bus *)

(** Modelled from the spec: the collaborators themselves (the state store,
    the per-user membership store, the transport and the cluster bus) are
    not among the sources. This instance follows the interface contracts
    of the spec's data model: the membership record counts the user's
    distinct sockets in a room ([njoined]), [hasChanged] tells whether the
    user's presence in the room changed, and a collaborator method listed
    in [faults] rejects. It serves to run the methods on concrete
    inputs. *)
Module Mem.

Record dstate : Type := {
  roster : list string;      (* rooms whose roster holds the user *)
  sockets : list string }.

Record ustate : Type := {
  joined : list (string * string);   (* socket id, room *)
  connected : list string;
  locks : list string }.

Record tstate : Type := {
  subscribed : list (string * string);
  live : list string }.

Definition bstate : Type := list string.

Definition mem (x : string) (l : list string) : bool :=
  existsb (String.eqb x) l.

Definition remove (x : string) (l : list string) : list string :=
  filter (fun y => negb (String.eqb x y)) l.

Definition samePair (p q : string * string) : bool :=
  String.eqb (fst p) (fst q) && String.eqb (snd p) (snd q).

Definition count (room : string) (u : ustate) : Z :=
  Z.of_nat (length (filter (fun p => String.eqb (snd p) room) (joined u))).

Definition failing (faults : list string) (name : string) : bool :=
  mem name faults.

Definition guarded {A X} (faults : list string) (name : string)
                   (op : X -> result A * X) (x : X) : result A * X :=
  if failing faults name then (Err (Rejection name), x) else op x.

Definition addSocketToRoom (id room : string) (u : ustate)
  : result (Z * bool) * ustate :=
  let before := count room u in
  let u' := if existsb (samePair (id, room)) (joined u) then u
            else {| joined := joined u ++ [(id, room)];
                    connected := connected u; locks := locks u |} in
  (Ok (count room u', (before =? 0)%Z && negb (count room u' =? 0)%Z), u').

Definition removeSocketFromRoom (id room : string) (u : ustate)
  : result (Z * bool) * ustate :=
  let before := count room u in
  let u' := {| joined := filter (fun p => negb (samePair (id, room) p))
                                (joined u);
               connected := connected u; locks := locks u |} in
  (Ok (count room u', negb (before =? 0)%Z && (count room u' =? 0)%Z), u').

Definition roomsOf (id : string) (u : ustate) : list string :=
  map snd (filter (fun p => String.eqb (fst p) id) (joined u)).

Definition removeSocket (id : string) (u : ustate)
  : result (option (list string) * option (list Z) * option Z) * ustate :=
  let rooms := roomsOf id u in
  let u' := {| joined := filter (fun p => negb (String.eqb (fst p) id))
                                (joined u);
               connected := remove id (connected u); locks := locks u |} in
  (Ok (Some rooms, Some (map (fun r => count r u') rooms),
       Some (Z.of_nat (length (connected u')))), u').

Definition addSocket (id uid : string) (u : ustate) : result Z * ustate :=
  let u' := {| joined := joined u; connected := connected u ++ [id];
               locks := locks u |} in
  (Ok (Z.of_nat (length (connected u'))), u').

Definition removeAllSocketsFromRoom (room : string) (u : ustate)
  : result (list string) * ustate :=
  (Ok (map fst (filter (fun p => String.eqb (snd p) room) (joined u))),
   {| joined := filter (fun p => negb (String.eqb (snd p) room)) (joined u);
      connected := connected u; locks := locks u |}).

Definition lockToRoom (room : string) (ttl : N) (u : ustate)
  : result string * ustate :=
  if mem room (locks u)
  then (Err (ChatServiceError "timeout" room), u)
  else (Ok room, {| joined := joined u; connected := connected u;
                    locks := room :: locks u |}).

Definition dispose (lock : string) (u : ustate) : ustate :=
  {| joined := joined u; connected := connected u;
     locks := remove lock (locks u) |}.

Definition this (faults : list string) (ack : settle unit)
                (order : nat -> list nat)
  : @UserAssociations dstate ustate tstate bstate :=
  {| userName := "alice";
     lockTTL := 5000;
     busAckTimeout := 100;
     instanceUID := "instance-1";
     state_getRoom := fun name =>
       guarded faults "state.getRoom"
         (fun s => (Ok {| room_name := name |}, s));
     state_addSocket := fun id _ =>
       guarded faults "state.addSocket"
         (fun s => (Ok tt, {| roster := roster s;
                              sockets := sockets s ++ [id] |}));
     state_removeSocket := fun id =>
       guarded faults "state.removeSocket"
         (fun s => (Ok tt, {| roster := roster s;
                              sockets := remove id (sockets s) |}));
     room_join := fun room _ =>
       guarded faults "room.join"
         (fun s => (Ok tt,
            {| roster := if mem (room_name room) (roster s) then roster s
                         else roster s ++ [room_name room];
               sockets := sockets s |}));
     room_leave := fun room _ =>
       guarded faults "room.leave"
         (fun s => (Ok tt, {| roster := remove (room_name room) (roster s);
                              sockets := sockets s |}));
     room_getNotificationsInfo := fun _ =>
       guarded faults "room.getNotificationsInfo"
         (fun s => (Ok {| enableUserlistUpdates := Some true |}, s));
     roomState_userlistUpdatesGet := fun _ =>
       guarded faults "roomState.userlistUpdatesGet"
         (fun s => (Ok true, s));
     userState_lockToRoom := fun room ttl =>
       guarded faults "userState.lockToRoom" (lockToRoom room ttl);
     lock_dispose := dispose;
     userState_addSocketToRoom := fun id room =>
       guarded faults "userState.addSocketToRoom" (addSocketToRoom id room);
     userState_removeSocketFromRoom := fun id room =>
       guarded faults "userState.removeSocketFromRoom"
         (removeSocketFromRoom id room);
     userState_addSocket := fun id uid =>
       guarded faults "userState.addSocket" (addSocket id uid);
     userState_removeSocket := fun id =>
       guarded faults "userState.removeSocket" (removeSocket id);
     userState_removeAllSocketsFromRoom := fun room =>
       guarded faults "userState.removeAllSocketsFromRoom"
         (removeAllSocketsFromRoom room);
     transport_joinChannel := fun id channel =>
       guarded faults "transport.joinChannel"
         (fun t => (Ok tt, {| subscribed := subscribed t ++ [(id, channel)];
                              live := live t |}));
     transport_leaveChannel := fun id channel =>
       guarded faults "transport.leaveChannel"
         (fun t => (Ok tt,
            {| subscribed := filter (fun p => negb (samePair (id, channel) p))
                                    (subscribed t);
               live := live t |}));
     transport_getSocket := fun id t => mem id (live t);
     bus_emit := fun name _ _ =>
       guarded faults "clusterBus.emit" (fun b => (Ok tt, b ++ [name]));
     bus_makeSocketRoomLeftName := fun id channel =>
       String.append "socketRoomLeft:"
                     (String.append id (String.append ":" channel));
     bus_eventToPromise := fun _ b => (ack, b);
     mapOrder := order |}.

(** A world in which the sockets [ids] of the user are connected and live,
    and the pairs [js] are joined. *)
Definition start (ids : list string) (js : list (string * string))
  : @world dstate ustate tstate bstate :=
  {| wS := {| roster := map snd js; sockets := ids |};
     wU := {| joined := js; connected := ids; locks := [] |};
     wT := {| subscribed := js; live := ids |};
     wB := [];
     clock := 0 |}.

End Mem.

(** ** Observations on an execution *)

Section Observations.

Context {DS US TS BS : Type}.
Variable this : @UserAssociations DS US TS BS.

(** Every event of every execution of [m] satisfies [Q]. *)
Definition emits {A} (Q : event -> Prop) (m : @M DS US TS BS A) : Prop :=
  forall w, Forall Q (evs (m w)).

(** A consistency-failure report as [consistencyFailure] issues it: the
    acting user's name is set and the event name follows the operation
    type. *)
Definition reportOk (ev : event) : Prop :=
  match ev with
  | ServerEmit name _ info =>
      info_userName info = Some (userName this) /\
      name = (if (info_opType info =? "transportChannel")%string
              then "transportConsistencyFailure"
              else "storeConsistencyFailure")
  | _ => True
  end.

End Observations.

Definition isJoinReport (ev : event) : bool :=
  match ev with UserJoinRoomReport _ _ => true | _ => false end.

Definition isConsistencyFailure (ev : event) : bool :=
  match ev with ServerEmit _ _ _ => true | _ => false end.

Definition isJoinEcho (ev : event) : bool :=
  match ev with SocketJoinEcho _ _ _ _ => true | _ => false end.

(** Neither taking nor releasing a room lock. *)
Definition notLocking (ev : event) : Prop :=
  match ev with
  | Call (C_userState_lockToRoom _ _) | Call (C_lock_dispose _) => False
  | _ => True
  end.

(** The per-socket "left" echoes, as (room, remaining count). *)
Definition leftEcho (id : string) (ev : event)
  : list (string * option Z) :=
  match ev with
  | SocketLeftEcho i r n None => if (i =? id)%string then [(r, n)] else []
  | _ => []
  end.

(** The rooms of the "user left room" reports. *)
Definition leftReport (ev : event) : list string :=
  match ev with UserLeftRoomReport _ r _ => [r] | _ => [] end.

(** The rooms whose roster the user is taken off. *)
Definition rosterLeave (ev : event) : list string :=
  match ev with Call (C_room_leave r _) => [room_name r] | _ => [] end.

(** The errors reported with operation type ['userSockets']. *)
Definition userSocketsFailure (ev : event) : list (error * option string) :=
  match ev with
  | ServerEmit _ e info =>
      if (info_opType info =? "userSockets")%string
      then [(e, info_id info)] else []
  | _ => []
  end.


(** The rooms looked up in the state store. *)
Definition roomLookup (ev : event) : list string :=
  match ev with Call (C_state_getRoom r) => [r] | _ => [] end.

(** The events of [removeUserSocket] that do not come from its per-room
    cleanup. *)
Definition outsideCleanup (ev : event) : Prop :=
  match ev with
  | Call (C_userState_removeSocket _) | Call (C_transport_leaveChannel _ _)
  | Call (C_state_removeSocket _) | ServerEmit _ _ _
  | SocketDisconnectEcho _ _ => True
  | _ => False
  end.


Section Outcomes.

Context {DS US TS BS : Type}.
Variable this : @UserAssociations DS US TS BS.

(** The execution took the lock of [roomName], did nothing about locks
    while it held it, and its last act was to release that lock. *)
Definition releases {A} (roomName lk : string)
                    (o : @outcome DS US TS BS A) : Prop :=
  exists inside u,
    evs o = Call (C_userState_lockToRoom roomName (lockTTL this))
              :: inside ++ [Call (C_lock_dispose lk)] /\
    Forall notLocking inside /\
    wU (st o) = lock_dispose this lk u.

End Outcomes.

(** Objects and worlds to run the methods on. *)
Module Runs.

Definition reliable : @UserAssociations _ _ _ _ :=
  Mem.this [] (Settled 10 (Ok tt)) (seq 0).

Definition fresh : world := Mem.start ["s1"; "s2"] [].

Definition oneJoined : world := Mem.start ["s1"; "s2"] [("s1", "lobby")].

(** The socket [s1] is in three rooms; the user's other socket is in
    one of them. *)
Definition threeRooms : world :=
  Mem.start ["s1"; "s2"]
            [("s1", "a"); ("s1", "b"); ("s2", "b"); ("s1", "c")].

(** The transport refuses to subscribe. *)
Definition noSubscription : @UserAssociations _ _ _ _ :=
  Mem.this ["transport.joinChannel"] Pending (seq 0).

(** The transport refuses to subscribe and the store refuses the
    removal that would compensate. *)
Definition noCompensation : @UserAssociations _ _ _ _ :=
  Mem.this ["transport.joinChannel"; "userState.removeSocketFromRoom"]
           Pending (seq 0).

(** The store refuses to take a socket out of a room. *)
Definition noDecrement : @UserAssociations _ _ _ _ :=
  Mem.this ["userState.removeSocketFromRoom"] Pending (seq 0).

(** The transport refuses to unsubscribe. *)
Definition noUnsubscribe : @UserAssociations _ _ _ _ :=
  Mem.this ["transport.leaveChannel"] Pending (seq 0).

(** [Promise.map] takes the items last to first. *)
Definition reversed : @UserAssociations _ _ _ _ :=
  Mem.this [] Pending (fun n => rev (seq 0 n)).

End Runs.

(** ** Evicting many users *)

Section Eviction.

Context {DS US TS BS : Type}.
Variable this : @UserAssociations DS US TS BS.

(** [this.state.getUser(userName)] and the [removeFromRoom] of the user it
    resolves with. The [User] class is not among the sources: the lookup
    is any method of the state store, and the removal is whatever the
    other user's object does. *)
Variable state_getUser : string -> DS -> result string * DS.
Variable user_removeFromRoom : string -> string -> @M DS US TS BS unit.

Definition this_state_getUser (name : string) : @M DS US TS BS string :=
  onState (C_state_getUser name) (state_getUser name).

(** [userNames = userNames || []] *)
Definition removeRoomUsers (roomName : string)
                           (userNames : option (list string))
  : @M DS US TS BS (list unit) :=
  let userNames := orDefault userNames [] in
  Promise_map this userNames (fun name _ =>
    catchReturn
      (bind (this_state_getUser name)
            (fun user => user_removeFromRoom user roomName))
      tt).

End Eviction.

(** ** Further observations *)

(** No execution of [m] changes the part [f] of the world. *)
Definition untouched {DS US TS BS A X : Type}
    (f : @world DS US TS BS -> X) (m : @M DS US TS BS A) : Prop :=
  forall w, f (st (m w)) = f w.

(** Not a call on the cluster bus. *)
Definition notBus (ev : event) : Prop :=
  match ev with
  | Call (C_bus_emit _ _ _) | Call (C_eventToPromise _) => False
  | _ => True
  end.

(** Not a call on the transport. *)
Definition notTransport (ev : event) : Prop :=
  match ev with
  | Call (C_transport_joinChannel _ _)
  | Call (C_transport_leaveChannel _ _) => False
  | _ => True
  end.

(** Not a call that takes a socket out of a room or a channel. *)
Definition notUndoing (ev : event) : Prop :=
  match ev with
  | Call (C_transport_leaveChannel _ _)
  | Call (C_userState_removeSocketFromRoom _ _)
  | Call (C_room_leave _ _) => False
  | _ => True
  end.

(** A notification of [UserReports], as opposed to a collaborator call
    or a consistency-failure report. *)
Definition isNotification (ev : event) : bool :=
  match ev with
  | Call _ | ServerEmit _ _ _ => false
  | _ => true
  end.

(** Every notification among the events is one of [allowed]. *)
Definition notifiesOnly (allowed : event -> Prop) (ev : event) : Prop :=
  match ev with
  | Call _ | ServerEmit _ _ _ => True
  | _ => allowed ev
  end.

(** The (socket, channel) pairs published as 'roomLeaveSocket'. *)
Definition busLeave (ev : event) : list (string * string) :=
  match ev with
  | Call (C_bus_emit name id channel) =>
      if (name =? "roomLeaveSocket")%string then [(id, channel)] else []
  | _ => []
  end.

(** The (socket, channel) pairs the transport is asked to unsubscribe. *)
Definition channelLeave (ev : event) : list (string * string) :=
  match ev with
  | Call (C_transport_leaveChannel id channel) => [(id, channel)]
  | _ => []
  end.


Definition removedReport (ev : event) : list (string * option bool) :=
  match ev with UserRemovedReport _ r en => [(r, en)] | _ => [] end.

Definition disconnectEcho (ev : event) : list (string * Z) :=
  match ev with SocketDisconnectEcho id n => [(id, n)] | _ => [] end.

Definition stateRemoval (ev : event) : list string :=
  match ev with Call (C_state_removeSocket id) => [id] | _ => [] end.

(** The sockets the per-user store is asked to remove. *)
Definition userRemoval (ev : event) : list string :=
  match ev with Call (C_userState_removeSocket id) => [id] | _ => [] end.

(** The users looked up in the state store. *)
Definition userLookup (ev : event) : list string :=
  match ev with Call (C_state_getUser name) => [name] | _ => [] end.



(** More objects and worlds to run the methods on. *)
Module Cases.

(** The room lock cannot be had. *)
Definition noLock : @UserAssociations _ _ _ _ :=
  Mem.this ["userState.lockToRoom"] Pending (seq 0).

(** The state store does not find the room. *)
Definition noRoom : @UserAssociations _ _ _ _ :=
  Mem.this ["state.getRoom"] Pending (seq 0).

(** The roster refuses the removal. *)
Definition noRosterLeave : @UserAssociations _ _ _ _ :=
  Mem.this ["room.leave"] Pending (seq 0).

(** The per-user store refuses to register a socket. *)
Definition noRegistration : @UserAssociations _ _ _ _ :=
  Mem.this ["userState.addSocket"] Pending (seq 0).

(** The store refuses to clear a room. *)
Definition noEviction : @UserAssociations _ _ _ _ :=
  Mem.this ["userState.removeAllSocketsFromRoom"] Pending (seq 0).

(** The per-user store refuses to remove a socket. *)
Definition noSocketRemoval : @UserAssociations _ _ _ _ :=
  Mem.this ["userState.removeSocket"] Pending (seq 0).

(** The state store refuses to remove a socket. *)
Definition noStateRemoval : @UserAssociations _ _ _ _ :=
  Mem.this ["state.removeSocket"] Pending (seq 0).


(** A state store that knows every user but [carol], and users whose
    removal from a room is seen as one report. *)
Definition getUser (name : string) (s : Mem.dstate)
  : result string * Mem.dstate :=
  if (name =? "carol")%string then (Err (Rejection "state.getUser"), s)
  else (Ok name, s).

Definition otherRemoveFromRoom (user roomName : string)
  : @M Mem.dstate Mem.ustate Mem.tstate Mem.bstate unit :=
  fun w => Out (Ok tt) w [UserRemovedReport user roomName None].

(** Both sockets of the user are in the lobby. *)
Definition bothJoined : world :=
  Mem.start ["s1"; "s2"] [("s1", "lobby"); ("s2", "lobby")].

(** A store that names the rooms of a removed socket without their
    remaining counts. *)
Definition noCounts : @UserAssociations _ _ _ _ :=
  let t := Mem.this [] Pending (seq 0) in
  {| userName := userName t;
     lockTTL := lockTTL t;
     busAckTimeout := busAckTimeout t;
     instanceUID := instanceUID t;
     state_getRoom := state_getRoom t;
     state_addSocket := state_addSocket t;
     state_removeSocket := state_removeSocket t;
     room_join := room_join t;
     room_leave := room_leave t;
     room_getNotificationsInfo := room_getNotificationsInfo t;
     roomState_userlistUpdatesGet := roomState_userlistUpdatesGet t;
     userState_lockToRoom := userState_lockToRoom t;
     lock_dispose := lock_dispose t;
     userState_addSocketToRoom := userState_addSocketToRoom t;
     userState_removeSocketFromRoom := userState_removeSocketFromRoom t;
     userState_addSocket := userState_addSocket t;
     userState_removeSocket := fun id u =>
       (match fst (Mem.removeSocket id u) with
        | Ok (rooms, _, n) => Ok (rooms, None, n)
        | Err e => Err e
        end, snd (Mem.removeSocket id u));
     userState_removeAllSocketsFromRoom :=
       userState_removeAllSocketsFromRoom t;
     transport_joinChannel := transport_joinChannel t;
     transport_leaveChannel := transport_leaveChannel t;
     transport_getSocket := transport_getSocket t;
     bus_emit := bus_emit t;
     bus_makeSocketRoomLeftName := bus_makeSocketRoomLeftName t;
     bus_eventToPromise := bus_eventToPromise t;
     mapOrder := mapOrder t |}.

End Cases.

(** * Properties *)

Section Properties.

Context {DS US TS BS : Type}.
Variable this : @UserAssociations DS US TS BS.

Local Abbreviation M := (@M DS US TS BS).
Local Abbreviation world := (@world DS US TS BS).

(** ** How events compose *)

Lemma emits_ret Q A (a : A) : emits Q (ret a : M A).
Proof. intro w. constructor. Qed.

Lemma emits_throw Q A e : emits Q (throw e : M A).
Proof. intro w. constructor. Qed.

Lemma emits_emit (Q : event -> Prop) ev : Q ev -> emits Q (emit ev : M unit).
Proof. intros H w. cbn. auto. Qed.

Lemma emits_bind Q A C (m : M A) (k : A -> M C) :
  emits Q m -> (forall a, emits Q (k a)) -> emits Q (bind m k).
Proof.
  intros Hm Hk w. unfold bind. specialize (Hm w).
  destruct (m w) as [[a|e] w1 l1]; cbn in *; auto.
  specialize (Hk a w1). destruct (k a w1); cbn in *.
  apply Forall_app; auto.
Qed.

Lemma emits_catch Q A (m : M A) (h : error -> M A) :
  emits Q m -> (forall e, emits Q (h e)) -> emits Q (catch m h).
Proof.
  intros Hm Hh w. unfold catch. specialize (Hm w).
  destruct (m w) as [[a|e] w1 l1]; cbn in *; auto.
  specialize (Hh e w1). destruct (h e w1); cbn in *.
  apply Forall_app; auto.
Qed.

Lemma emits_attempt Q A (m : M A) : emits Q m -> emits Q (attempt m).
Proof.
  intros Hm w. unfold attempt. specialize (Hm w).
  destruct (m w); cbn in *; auto.
Qed.

Lemma emits_all3 Q A1 A2 A3 (a : M A1) (b : M A2) (c : M A3) :
  emits Q a -> emits Q b -> emits Q c -> emits Q (Promise_all3 a b c).
Proof.
  intros Ha Hb Hc w. unfold Promise_all3. specialize (Ha w).
  destruct (a w) as [ra w1 l1]. specialize (Hb w1).
  destruct (b w1) as [rb w2 l2]. specialize (Hc w2).
  destruct (c w2) as [rc w3 l3]. cbn in *.
  repeat (apply Forall_app; split); auto.
Qed.

Lemma emits_settleEach Q A C (f : A -> nat -> M C) l :
  (forall a i, emits Q (f a i)) -> emits Q (settleEach f l).
Proof.
  intro Hf. induction l as [|ia l IH]; cbn [settleEach].
  - apply emits_ret.
  - apply emits_bind; [apply emits_attempt, Hf|intro r].
    apply emits_bind; [exact IH|intro rs]. apply emits_ret.
Qed.

Lemma emits_map Q A C (items : list A) (f : A -> nat -> M C) :
  (forall a i, emits Q (f a i)) -> emits Q (Promise_map this items f).
Proof.
  intro Hf. unfold Promise_map.
  apply emits_bind; [apply emits_settleEach, Hf|intro rs].
  destruct (firstError rs); [apply emits_throw|apply emits_ret].
Qed.

Lemma emits_onState (Q : event -> Prop) A c (op : DS -> result A * DS) :
  Q (Call c) -> emits Q (onState c op : M A).
Proof. intros H w. cbn. auto. Qed.

Lemma emits_onUserState (Q : event -> Prop) A c (op : US -> result A * US) :
  Q (Call c) -> emits Q (onUserState c op : M A).
Proof. intros H w. cbn. auto. Qed.

Lemma emits_onTransport (Q : event -> Prop) A c (op : TS -> result A * TS) :
  Q (Call c) -> emits Q (onTransport c op : M A).
Proof. intros H w. cbn. auto. Qed.

Lemma emits_onBus (Q : event -> Prop) A c (op : BS -> result A * BS) :
  Q (Call c) -> emits Q (onBus c op : M A).
Proof. intros H w. cbn. auto. Qed.

Lemma emits_getSocket Q id : emits Q (this_transport_getSocket this id).
Proof. intro w. constructor. Qed.

Lemma emits_using (Q : event -> Prop) A (lock : M string) (body : M A) :
  emits Q lock -> (forall lk, Q (Call (C_lock_dispose lk))) ->
  emits Q body -> emits Q (Promise_using this lock body).
Proof.
  intros Hl Hd Hb. unfold Promise_using.
  apply emits_bind; [exact Hl|intro lk].
  apply emits_bind; [apply emits_attempt, Hb|intro r].
  apply emits_bind; [apply emits_onUserState, Hd|intros _].
  destruct r; [apply emits_ret|apply emits_throw].
Qed.

Lemma emits_timeout_try (Q : event -> Prop) name id channel ev ms :
  Q (Call (C_bus_emit name id channel)) -> Q (Call (C_eventToPromise ev)) ->
  emits Q (Promise_timeout
             (Promise_try (this_bus_emit this name id channel)
                          (eventToPromise this ev)) ms).
Proof.
  intros H1 H2 w. unfold Promise_timeout, Promise_try, this_bus_emit, onBus,
    eventToPromise. cbn.
  destruct (fst (bus_emit this name id channel (wB w))); cbn.
  - destruct (fst (bus_eventToPromise this ev _)); cbn;
      [destruct (_ <? _)%N; cbn|]; auto.
  - destruct (_ <? _)%N; cbn; auto.
Qed.

(** Splits a method into its calls; [leaf] settles what is asked of each
    single event. *)
Ltac emits_with leaf :=
  repeat first
    [ apply emits_ret | apply emits_throw
    | apply emits_getSocket
    | apply emits_emit; leaf
    | apply emits_onState; leaf
    | apply emits_onUserState; leaf
    | apply emits_onTransport; leaf
    | apply emits_onBus; leaf
    | apply emits_timeout_try; leaf
    | apply emits_map; intros
    | apply emits_using; [| intro; leaf |]
    | apply emits_all3
    | apply emits_attempt
    | apply emits_bind; [|intro]
    | apply emits_catch; [|intro]
    | match goal with
      | |- emits _ (if ?b then _ else _) => destruct b
      | |- emits _ (match ?x with _ => _ end) => destruct x
      end ].

Ltac unfold_methods :=
  unfold joinSocketToRoom, leaveSocketFromRoom, removeFromRoom,
    addUserSocket, removeUserSocket, removeUserSocketsFromRoom,
    roomCleanup, joinStep3, rollbackRoomJoin, getNotifySettings, leaveRoom,
    channelLeaveSockets, socketLeaveChannels, leaveChannelMessage,
    leaveChannel, consistencyFailure, catchReturn,
    userJoinRoomReport, socketJoinEcho, socketLeftEcho, userLeftRoomReport,
    socketDisconnectEcho, userRemovedReport,
    this_state_getRoom, this_state_addSocket, this_state_removeSocket,
    this_room_join, this_room_leave, this_room_getNotificationsInfo,
    this_roomState_userlistUpdatesGet, this_userState_lockToRoom,
    this_lock_dispose, this_userState_addSocketToRoom,
    this_userState_removeSocketFromRoom, this_userState_addSocket,
    this_userState_removeSocket, this_userState_removeAllSocketsFromRoom,
    this_transport_joinChannel, this_transport_leaveChannel, this_bus_emit.

Ltac unfold_calls :=
  unfold this_state_getRoom, this_state_addSocket, this_state_removeSocket,
    this_room_join, this_room_leave, this_room_getNotificationsInfo,
    this_roomState_userlistUpdatesGet, this_userState_lockToRoom,
    this_lock_dispose, this_userState_addSocketToRoom,
    this_userState_removeSocketFromRoom, this_userState_addSocket,
    this_userState_removeSocket, this_userState_removeAllSocketsFromRoom,
    this_transport_joinChannel, this_transport_leaveChannel, this_bus_emit,
    this_transport_getSocket,
    onState, onUserState, onTransport, onBus.

Ltac report_leaf := cbn; auto.

Lemma reports_joinSocketToRoom id roomName isLocalCall :
  emits (reportOk this) (joinSocketToRoom this id roomName isLocalCall).
Proof. unfold_methods. emits_with report_leaf. Qed.

Lemma reports_leaveSocketFromRoom id roomName isLocalCall :
  emits (reportOk this) (leaveSocketFromRoom this id roomName isLocalCall).
Proof. unfold_methods. emits_with report_leaf. Qed.

Lemma reports_removeUserSocket id :
  emits (reportOk this) (removeUserSocket this id).
Proof. unfold_methods. emits_with report_leaf. Qed.

Lemma reports_addUserSocket id :
  emits (reportOk this) (addUserSocket this id).
Proof. unfold_methods. emits_with report_leaf. Qed.

Lemma reports_removeFromRoom roomName :
  emits (reportOk this) (removeFromRoom this roomName).
Proof. unfold_methods. emits_with report_leaf. Qed.

(** ** Consistency-failure reports *)

(** C10: a consistency-failure report sets the acting user's name on the
    operation info, goes out under 'transportConsistencyFailure' when the
    operation type is 'transportChannel' and under
    'storeConsistencyFailure' for any other type, and the call returns;
    every report of every public method has this shape. *)
Theorem consistencyFailure_event :
  (forall e info w,
     exists name,
       consistencyFailure this e info w =
         Out (Ok tt) w
             [ServerEmit name e
                {| info_roomName := info_roomName info;
                   info_id := info_id info;
                   info_opType := info_opType info;
                   info_userName := Some (userName this) |}] /\
       (info_opType info = "transportChannel" ->
        name = "transportConsistencyFailure") /\
       (info_opType info <> "transportChannel" ->
        name = "storeConsistencyFailure")) /\
  (forall id roomName isLocalCall,
     emits (reportOk this) (joinSocketToRoom this id roomName isLocalCall) /\
     emits (reportOk this)
           (leaveSocketFromRoom this id roomName isLocalCall)) /\
  (forall id,
     emits (reportOk this) (removeUserSocket this id) /\
     emits (reportOk this) (addUserSocket this id)) /\
  (forall roomName, emits (reportOk this) (removeFromRoom this roomName)).
Proof.
  split; [|split; [|split]].
  - intros e info w. unfold consistencyFailure, emit. cbn.
    eexists. split; [reflexivity|].
    destruct (String.eqb_spec (info_opType info) "transportChannel");
      split; intro; congruence.
  - intros. split;
      [apply reports_joinSocketToRoom|apply reports_leaveSocketFromRoom].
  - intros. split; [apply reports_removeUserSocket|apply reports_addUserSocket].
  - apply reports_removeFromRoom.
Qed.

(** ** The cluster leave-notification *)

(** C4: whatever the bus does (the acknowledgement comes, never comes, or
    publishing or waiting fails), [leaveChannelMessage] resolves, and no
    later than the bus-acknowledgement timeout after it was called. *)
Theorem leaveChannelMessage_resolves id channel (w : world) :
  res (leaveChannelMessage this id channel w) = Ok tt /\
  (clock w <= clock (st (leaveChannelMessage this id channel w)) /\
   clock (st (leaveChannelMessage this id channel w))
     <= clock w + busAckTimeout this)%N.
Proof.
  unfold leaveChannelMessage, catchReturn, catch, Promise_timeout,
    Promise_try, this_bus_emit, onBus, eventToPromise. cbn.
  destruct (fst (bus_emit this _ id channel (wB w))) as [[]|e]; cbn.
  - destruct (fst (bus_eventToPromise this _ _)) as [t [[]|e]|]; cbn;
      try destruct (N.ltb_spec t (busAckTimeout this)); cbn;
      repeat split; lia.
  - destruct (N.ltb_spec 0 (busAckTimeout this)); cbn; repeat split; lia.
Qed.

(** ** Room locks *)

Lemma using_releases A (body : M A) roomName (w : world) lk u1 :
  userState_lockToRoom this roomName (lockTTL this) (wU w) = (Ok lk, u1) ->
  emits notLocking body ->
  releases this roomName lk
    (Promise_using this
       (this_userState_lockToRoom this roomName (lockTTL this)) body w).
Proof.
  intros Hl Hb. unfold releases, Promise_using, bind, attempt,
    this_userState_lockToRoom, this_lock_dispose, onUserState. cbn.
  rewrite Hl. cbn.
  match goal with |- context [body ?w1] =>
    specialize (Hb w1); destruct (body w1) as [r w2 l2] end.
  cbn in *. exists l2, (wU w2).
  destruct r; cbn; rewrite ?app_nil_r; auto.
Qed.

Ltac lock_leaf := cbn; auto.

(** C8: once [joinSocketToRoom], [leaveSocketFromRoom] or
    [removeFromRoom] has taken the lock of the room, the lock is released
    as the last act of the call, however the guarded part ends, and is
    neither taken nor released in between. *)
Theorem lock_released id roomName isLocalCall (w : world) lk u1 :
  userState_lockToRoom this roomName (lockTTL this) (wU w) = (Ok lk, u1) ->
  releases this roomName lk (joinSocketToRoom this id roomName isLocalCall w)
  /\ releases this roomName lk
       (leaveSocketFromRoom this id roomName isLocalCall w)
  /\ releases this roomName lk (removeFromRoom this roomName w).
Proof.
  intro Hl. repeat split.
  - unfold joinSocketToRoom. apply using_releases with (u1 := u1); auto.
    unfold_methods. emits_with lock_leaf.
  - unfold leaveSocketFromRoom. apply using_releases with (u1 := u1); auto.
    unfold_methods. emits_with lock_leaf.
  - unfold removeFromRoom. apply using_releases with (u1 := u1); auto.
    unfold_methods. emits_with lock_leaf.
Qed.

(** ** What the helpers settle with *)

Arguments rollbackRoomJoin : simpl never.
Arguments leaveRoom : simpl never.
Arguments getNotifySettings : simpl never.
Arguments leaveChannel : simpl never.
Arguments leaveChannelMessage : simpl never.
Arguments removeUserSocket : simpl never.
Arguments Promise_map : simpl never.
Arguments socketLeaveChannels : simpl never.
Arguments channelLeaveSockets : simpl never.
Arguments roomCleanup : simpl never.

Ltac collab :=
  match goal with
  | |- context [fst ?x] =>
      let E := fresh "E" in
      destruct x as [[?|?] ?] eqn:E; cbn [fst snd]
  end.

Lemma leaveRoom_res roomName (w : world) :
  res (leaveRoom this roomName w) = Ok tt.
Proof.
  unfold_methods. unfold catch, bind, onState, emit, ret. cbn.
  collab; cbn; [|reflexivity].
  collab; cbn; [destruct a0|]; reflexivity.
Qed.

Lemma getNotifySettings_res roomName (w : world) :
  exists info, res (getNotifySettings this roomName w) = Ok info.
Proof.
  unfold_methods. unfold catch, bind, onState, ret. cbn.
  collab; cbn; [|eauto]. collab; cbn; eauto.
Qed.

Lemma leaveChannel_res id channel (w : world) :
  res (leaveChannel this id channel w) = Ok tt.
Proof.
  unfold_methods. unfold catch, onTransport, emit. cbn.
  collab; cbn; [destruct a|]; reflexivity.
Qed.

Lemma rollbackRoomJoin_res A e roomName id (w : world) :
  res (rollbackRoomJoin this (A := A) e roomName id w) = Err e.
Proof.
  unfold rollbackRoomJoin. unfold bind at 1.
  match goal with |- context [catch ?m ?h w] =>
    assert (H : exists n, res (catch m h w) = Ok n);
      [|destruct H as [n H]; destruct (catch m h w) as [r w1 l1]; cbn in H;
        subst r] end.
  - unfold_methods. unfold catch, bind, onUserState, emit, ret. cbn.
    collab; cbn; eauto.
  - unfold bind.
    destruct (negb (truthyZ n)).
    + pose proof (leaveRoom_res roomName w1) as H.
      destruct (leaveRoom this roomName w1) as [r w2 l2]. cbn in H. subst r.
      reflexivity.
    + reflexivity.
Qed.

(** ** Joining a room *)

(** A join that resolves has had every collaborator call resolve, and its
    events are those calls, the report and the echo. *)
Lemma joinSocketToRoom_ok id roomName isLocalCall (w : world) n :
  res (joinSocketToRoom this id roomName isLocalCall w) = Ok n ->
  exists lk u1 room s1 s2 enable s3 hasChanged u2 t1,
    userState_lockToRoom this roomName (lockTTL this) (wU w) = (Ok lk, u1) /\
    state_getRoom this roomName (wS w) = (Ok room, s1) /\
    room_join this room (userName this) s1 = (Ok tt, s2) /\
    roomState_userlistUpdatesGet this room s2 = (Ok enable, s3) /\
    userState_addSocketToRoom this id roomName u1
      = (Ok (n, hasChanged), u2) /\
    transport_joinChannel this id roomName (wT w) = (Ok tt, t1) /\
    evs (joinSocketToRoom this id roomName isLocalCall w) =
      [Call (C_userState_lockToRoom roomName (lockTTL this));
       Call (C_state_getRoom roomName);
       Call (C_room_join room (userName this));
       Call (C_roomState_userlistUpdatesGet room);
       Call (C_userState_addSocketToRoom id roomName);
       Call (C_transport_joinChannel id roomName)]
      ++ (if hasChanged then
            (if (n =? 1)%Z && enable
             then [UserJoinRoomReport (userName this) roomName] else [])
            ++ [SocketJoinEcho id roomName n isLocalCall]
          else [])
      ++ [Call (C_lock_dispose lk)].
Proof.
  set (o := joinSocketToRoom this id roomName isLocalCall w).
  assert (Ho : o = joinSocketToRoom this id roomName isLocalCall w)
    by reflexivity.
  clearbody o. revert Ho.
  unfold joinSocketToRoom, Promise_using, attempt, joinStep3, Promise_all3.
  unfold_calls. unfold bind, catch. cbn.
  destruct (userState_lockToRoom this roomName (lockTTL this) (wU w))
    as [[lk|e0] u1] eqn:E1; cbn; [|intros -> [=]].
  destruct (state_getRoom this roomName (wS w)) as [[room|e0] s1] eqn:E2;
    cbn; [|intros -> [=]].
  destruct (room_join this room (userName this) s1) as [[[]|e0] s2] eqn:E3;
    cbn; [|intros -> [=]].
  destruct (roomState_userlistUpdatesGet this room s2)
    as [[enable|e1] s3] eqn:E4;
  destruct (userState_addSocketToRoom this id roomName u1)
    as [[[n' hasChanged]|e2] u2] eqn:E5;
  destruct (transport_joinChannel this id roomName (wT w))
    as [[[]|e3] t1] eqn:E6; cbn;
  try (match goal with |- context [rollbackRoomJoin this ?e ?r ?i ?w1] =>
         pose proof (@rollbackRoomJoin_res Z e r i w1) as Hr;
         destruct (rollbackRoomJoin this (A := Z) e r i w1) as [rr ww ll];
         cbn in Hr; subst rr; cbn; intros -> [=] end).
  unfold_methods. unfold bind, emit, ret, throw. cbn.
  destruct hasChanged; [destruct ((n' =? 1)%Z && enable) eqn:Eb|]; cbn;
    intros -> [= ->];
    exists lk, u1, room, s1, s2, enable, s3;
    eexists; exists u2, t1; repeat split; eauto;
    cbn; rewrite ?Eb; reflexivity.
Qed.

(** C5: a join that resolves issues the "user joined room" report exactly
    when the increment returned [hasChanged] true and [njoined] 1 and the
    room has userlist updates enabled, and it resolves with the [njoined]
    of the increment. *)
Theorem joinSocketToRoom_report id roomName isLocalCall (w : world) n :
  res (joinSocketToRoom this id roomName isLocalCall w) = Ok n ->
  exists lk u1 u2 room s1 s2 s3 enable hasChanged,
    userState_lockToRoom this roomName (lockTTL this) (wU w) = (Ok lk, u1) /\
    state_getRoom this roomName (wS w) = (Ok room, s1) /\
    room_join this room (userName this) s1 = (Ok tt, s2) /\
    roomState_userlistUpdatesGet this room s2 = (Ok enable, s3) /\
    userState_addSocketToRoom this id roomName u1
      = (Ok (n, hasChanged), u2) /\
    filter isJoinReport (evs (joinSocketToRoom this id roomName isLocalCall w))
      = if hasChanged && (n =? 1)%Z && enable
        then [UserJoinRoomReport (userName this) roomName] else [].
Proof.
  intro H. apply joinSocketToRoom_ok in H.
  destruct H as (lk & u1 & room & s1 & s2 & enable & s3 & hc & u2 & t1 &
                 H1 & H2 & H3 & H4 & H5 & H6 & Hev).
  exists lk, u1, u2, room, s1, s2, s3, enable, hc.
  repeat (split; [assumption|]).
  rewrite Hev. cbn.
  destruct hc; cbn; [|reflexivity].
  destruct ((n =? 1)%Z && enable); reflexivity.
Qed.

(** C2, amended: a join that resolves issues the per-socket "joined" echo,
    tagged with [isLocalCall], exactly when the increment returned
    [hasChanged] true. *)
Theorem joinSocketToRoom_echo id roomName isLocalCall (w : world) n :
  res (joinSocketToRoom this id roomName isLocalCall w) = Ok n ->
  exists lk u1 u2 hasChanged,
    userState_lockToRoom this roomName (lockTTL this) (wU w) = (Ok lk, u1) /\
    userState_addSocketToRoom this id roomName u1
      = (Ok (n, hasChanged), u2) /\
    filter isJoinEcho (evs (joinSocketToRoom this id roomName isLocalCall w))
      = if hasChanged then [SocketJoinEcho id roomName n isLocalCall]
        else [].
Proof.
  intro H. apply joinSocketToRoom_ok in H.
  destruct H as (lk & u1 & room & s1 & s2 & enable & s3 & hc & u2 & t1 &
                 H1 & H2 & H3 & H4 & H5 & H6 & Hev).
  exists lk, u1, u2, hc.
  repeat (split; [assumption|]).
  rewrite Hev. cbn.
  destruct hc; cbn; [|reflexivity].
  destruct ((n =? 1)%Z && enable); reflexivity.
Qed.

(** Settles the next collaborator call whose state is already known. *)
Ltac collab_next :=
  match goal with
  | |- context [fst (?op ?s)] =>
      lazymatch s with
      | context [snd _] => fail
      | _ => idtac
      end;
      let E := fresh "E" in destruct (op s) as [[?|?] ?] eqn:E; cbn
  | |- context [snd (?op ?s)] =>
      lazymatch s with
      | context [snd _] => fail
      | _ => idtac
      end;
      let E := fresh "E" in destruct (op s) as [[?|?] ?] eqn:E; cbn
  end.

Ltac unfold_all :=
  unfold_methods; unfold Promise_using, Promise_all3, attempt;
  unfold_calls; unfold bind, catch, emit, ret, throw; cbn.

Ltac settle_all :=
  repeat first
    [ collab_next
    | match goal with
      | |- context [match ?p with (_, _) => _ end] =>
          is_var p; destruct p; cbn
      | |- context [if ?b then _ else _] => destruct b eqn:?; cbn
      end ].

(** The course of a join whose step 3 fails. *)
Lemma joinSocketToRoom_compensated
    id roomName isLocalCall (w : world) lk u1 room s1 s2 e :
  userState_lockToRoom this roomName (lockTTL this) (wU w) = (Ok lk, u1) ->
  state_getRoom this roomName (wS w) = (Ok room, s1) ->
  room_join this room (userName this) s1 = (Ok tt, s2) ->
  let w3 := {| wS := s2; wU := u1; wT := wT w; wB := wB w;
               clock := clock w |} in
  let step3 := joinStep3 this room id roomName w3 in
  res step3 = Err e ->
  let o := joinSocketToRoom this id roomName isLocalCall w in
  let removal :=
    userState_removeSocketFromRoom this id roomName (wU (st step3)) in
  let w5 := {| wS := wS (st step3); wU := snd removal;
               wT := wT (st step3); wB := wB (st step3);
               clock := clock (st step3) |} in
  res o = Err e /\
  wU (st step3) = snd (userState_addSocketToRoom this id roomName u1) /\
  wU (st o) = lock_dispose this lk (snd removal) /\
  evs o =
    [Call (C_userState_lockToRoom roomName (lockTTL this));
     Call (C_state_getRoom roomName);
     Call (C_room_join room (userName this))]
    ++ evs step3
    ++ [Call (C_userState_removeSocketFromRoom id roomName)]
    ++ match fst removal with
       | Ok (njoined, _) =>
           if (njoined =? 0)%Z then evs (leaveRoom this roomName w5) else []
       | Err e' =>
           [ServerEmit "storeConsistencyFailure" e'
              {| info_roomName := Some roomName; info_id := None;
                 info_opType := "userRooms";
                 info_userName := Some (userName this) |}]
       end
    ++ [Call (C_lock_dispose lk)].
Proof.
  intros H1 H2 H3. cbv zeta. unfold_all. rewrite H1. cbn. rewrite H2. cbn.
  rewrite H3. cbn. unfold truthyZ.
  settle_all.
  all: intros H4; try discriminate H4.
  all: repeat match goal with
         | H : (_, _) = (_, _) |- _ => inversion H; subst; clear H
         end.
  all: cbn in *; try discriminate.
  all: repeat split; try assumption; try reflexivity; try congruence.
Qed.

(** C1, amended: when one of the three calls of step 3 fails, the join
    rejects with that error; the compensation consists of one
    [removeSocketFromRoom] on the store as the increment attempt left it,
    followed by [leaveRoom] when the removal answers [njoined = 0], or by
    a 'userRooms' consistency-failure report and nothing else when the
    removal itself fails; then the lock is released. When the removal
    resolves and the socket was not in the room before the join, the
    count of the shared store is its value before the join, on every
    store in which an increment attempt for a socket not in the room
    followed by a resolved removal leaves the count alone and in which
    taking and releasing a lock does not touch it. *)
Theorem joinSocketToRoom_compensation
    id roomName isLocalCall (w : world) lk u1 room s1 s2 e :
  userState_lockToRoom this roomName (lockTTL this) (wU w) = (Ok lk, u1) ->
  state_getRoom this roomName (wS w) = (Ok room, s1) ->
  room_join this room (userName this) s1 = (Ok tt, s2) ->
  let w3 := {| wS := s2; wU := u1; wT := wT w; wB := wB w;
               clock := clock w |} in
  let step3 := joinStep3 this room id roomName w3 in
  res step3 = Err e ->
  let o := joinSocketToRoom this id roomName isLocalCall w in
  let removal :=
    userState_removeSocketFromRoom this id roomName (wU (st step3)) in
  let w5 := {| wS := wS (st step3); wU := snd removal;
               wT := wT (st step3); wB := wB (st step3);
               clock := clock (st step3) |} in
  res o = Err e /\
  wU (st step3) = snd (userState_addSocketToRoom this id roomName u1) /\
  wU (st o) = lock_dispose this lk (snd removal) /\
  evs o =
    [Call (C_userState_lockToRoom roomName (lockTTL this));
     Call (C_state_getRoom roomName);
     Call (C_room_join room (userName this))]
    ++ evs step3
    ++ [Call (C_userState_removeSocketFromRoom id roomName)]
    ++ match fst removal with
       | Ok (njoined, _) =>
           if (njoined =? 0)%Z then evs (leaveRoom this roomName w5) else []
       | Err e' =>
           [ServerEmit "storeConsistencyFailure" e'
              {| info_roomName := Some roomName; info_id := None;
                 info_opType := "userRooms";
                 info_userName := Some (userName this) |}]
       end
    ++ [Call (C_lock_dispose lk)] /\
  (forall (count : US -> Z) (fresh : US -> Prop),
     (forall r t u, count (snd (userState_lockToRoom this r t u)) = count u) ->
     (forall r t u, fresh u -> fresh (snd (userState_lockToRoom this r t u))) ->
     (forall l u, count (lock_dispose this l u) = count u) ->
     (forall u njoined hasChanged u',
        fresh u ->
        userState_removeSocketFromRoom this id roomName
          (snd (userState_addSocketToRoom this id roomName u))
          = (Ok (njoined, hasChanged), u') ->
        count u' = count u) ->
     fresh (wU w) ->
     forall njoined hasChanged u4,
       removal = (Ok (njoined, hasChanged), u4) ->
       count (wU (st o)) = count (wU w)).
Proof.
  intros H1 H2 H3. cbv zeta. intro H4.
  destruct (joinSocketToRoom_compensated id roomName isLocalCall w
              H1 H2 H3 H4) as (Hres & Hadd & HU & Hev).
  repeat (split; [assumption|]).
  intros count fresh Lc Lf Ld Law Hfresh njoined hasChanged u4 Hrem.
  rewrite HU, Ld, Hrem. cbn [snd].
  rewrite Hadd in Hrem.
  pose proof (Lc roomName (lockTTL this) (wU w)) as Hc.
  pose proof (Lf roomName (lockTTL this) (wU w) Hfresh) as Hf.
  rewrite H1 in Hc, Hf. cbn [snd] in Hc, Hf.
  rewrite <- Hc. exact (Law u1 njoined hasChanged u4 Hf Hrem).
Qed.

(** ** Leaving a room *)

(** C3, amended: once the lock is held, [leaveSocketFromRoom] resolves
    with the [njoined] of the shared-store decrement whenever the
    decrement resolves, whatever the notification-config read, the
    transport unsubscribe and the roster removal do; errors of the
    transport unsubscribe and of the roster's [leave] are reported as
    consistency failures. An error of the decrement itself is not
    absorbed: the call rejects with it. *)
Theorem leaveSocketFromRoom_result id roomName isLocalCall (w : world) lk u1 :
  userState_lockToRoom this roomName (lockTTL this) (wU w) = (Ok lk, u1) ->
  (forall n hasChanged u2,
     userState_removeSocketFromRoom this id roomName u1
       = (Ok (n, hasChanged), u2) ->
     res (leaveSocketFromRoom this id roomName isLocalCall w) = Ok n) /\
  (forall e u2,
     userState_removeSocketFromRoom this id roomName u1 = (Err e, u2) ->
     res (leaveSocketFromRoom this id roomName isLocalCall w) = Err e) /\
  (forall e t1,
     transport_leaveChannel this id roomName (wT w) = (Err e, t1) ->
     In (ServerEmit "transportConsistencyFailure" e
           {| info_roomName := Some roomName; info_id := Some id;
              info_opType := "transportChannel";
              info_userName := Some (userName this) |})
        (evs (leaveSocketFromRoom this id roomName isLocalCall w))) /\
  (forall hasChanged u2 room s1 e s2,
     userState_removeSocketFromRoom this id roomName u1
       = (Ok (0%Z, hasChanged), u2) ->
     state_getRoom this roomName (wS (st (getNotifySettings this roomName w)))
       = (Ok room, s1) ->
     room_leave this room (userName this) s1 = (Err e, s2) ->
     In (ServerEmit "storeConsistencyFailure" e
           {| info_roomName := Some roomName; info_id := None;
              info_opType := "roomUserlist";
              info_userName := Some (userName this) |})
        (evs (leaveSocketFromRoom this id roomName isLocalCall w))).
Proof.
  intro Hl. unfold_all. rewrite Hl. cbn.
  settle_all.
  all: repeat split; intros; try congruence;
    repeat match goal with
      | H1 : ?x = (_, _), H2 : ?x = (_, _) |- _ => rewrite H1 in H2
      | H : (_, _) = (_, _) |- _ => injection H as ?; subst
      | H : Ok _ = Ok _ |- _ => injection H as ?; subst
      | H : Ok _ = Err _ |- _ => discriminate H
      | H : Err _ = Ok _ |- _ => discriminate H
      | H : Err _ = Err _ |- _ => injection H as ?; subst
      end; try reflexivity; try discriminate; cbn; auto 20.
Qed.

(** ** Removing a socket *)

Lemma settleEach_res A C (f : A -> nat -> M C) l (w : world) :
  (forall a i w', exists c, res (f a i w') = Ok c) ->
  exists rs, res (settleEach f l w) = Ok rs /\ firstError rs = None.
Proof.
  intro Hf. revert w. induction l as [|ia l IH]; intro w; cbn [settleEach].
  - exists []. split; reflexivity.
  - unfold bind at 1, attempt.
    destruct (Hf (snd ia) (fst ia) w) as [c Hc].
    destruct (f (snd ia) (fst ia) w) as [r w1 l1]. cbn in Hc. subst r.
    unfold bind at 1.
    destruct (IH w1) as (rs & Hrs & Hnone).
    destruct (settleEach f l w1) as [r w2 l2]. cbn in Hrs. subst r. cbn.
    eexists. split; [reflexivity|]. cbn. exact Hnone.
Qed.

Lemma Promise_map_res A C (items : list A) (f : A -> nat -> M C) (w : world) :
  (forall a i w', exists c, res (f a i w') = Ok c) ->
  exists cs, res (Promise_map this items f w) = Ok cs.
Proof.
  intro Hf. unfold Promise_map, bind.
  destruct (settleEach_res f (scheduled this items) w Hf) as (rs & Hrs & Hn).
  destruct (settleEach f (scheduled this items) w) as [r w1 l1].
  cbn in Hrs. subst r. rewrite Hn. cbn. eauto.
Qed.

Lemma roomCleanup_res id joinedSockets roomName idx (w : world) :
  exists c, res (roomCleanup this id joinedSockets roomName idx w) = Ok c.
Proof.
  unfold roomCleanup, socketLeftEcho, userLeftRoomReport, bind, emit. cbn.
  destruct (truthy _); cbn; [eauto|].
  pose proof (leaveRoom_res roomName w) as H.
  destruct (leaveRoom this roomName w) as [r w1 l1]. cbn in H. subst r.
  destruct (getNotifySettings_res roomName w1) as [info Hi].
  destruct (getNotifySettings this roomName w1) as [r w2 l2].
  cbn in Hi. subst r. cbn. eauto.
Qed.

(** The whole course of [removeUserSocket]: nothing after a failed
    [userState.removeSocket] but the report; otherwise the channel leaves,
    the per-room cleanups, the disconnect echo and [state.removeSocket],
    whose failure is reported last. *)
Lemma removeUserSocket_course id (w : world) :
  let info := {| info_roomName := None; info_id := Some id;
                 info_opType := "userSockets";
                 info_userName := Some (userName this) |} in
  let w1 := {| wS := wS w;
               wU := snd (userState_removeSocket this id (wU w));
               wT := wT w; wB := wB w; clock := clock w |} in
  res (removeUserSocket this id w) = Ok tt /\
  match fst (userState_removeSocket this id (wU w)) with
  | Err e =>
      st (removeUserSocket this id w) = w1 /\
      evs (removeUserSocket this id w) =
        [Call (C_userState_removeSocket id);
         ServerEmit "storeConsistencyFailure" e info]
  | Ok (roomsRemoved, joinedSockets, nconnected) =>
      let o1 := socketLeaveChannels this id (orDefault roomsRemoved []) w1 in
      let o2 := Promise_map this (orDefault roomsRemoved [])
                  (roomCleanup this id (orDefault joinedSockets []))
                  (st o1) in
      evs (removeUserSocket this id w) =
        Call (C_userState_removeSocket id) :: evs o1 ++ evs o2 ++
        [SocketDisconnectEcho id (orZero nconnected);
         Call (C_state_removeSocket id)] ++
        match fst (state_removeSocket this id (wS (st o2))) with
        | Err e => [ServerEmit "storeConsistencyFailure" e info]
        | Ok _ => []
        end
  end.
Proof.
  cbv zeta. unfold removeUserSocket, catch, bind,
    this_userState_removeSocket, onUserState, socketDisconnectEcho, emit,
    this_state_removeSocket, onState, consistencyFailure.
  cbn.
  destruct (userState_removeSocket this id (wU w))
    as [[[[roomsRemoved joinedSockets] nconnected]|e] u1]; cbn.
  2: { repeat split. }
  match goal with |- context [socketLeaveChannels this id ?rs ?w1] =>
    destruct (Promise_map_res rs (fun channel _ => leaveChannel this id channel)
                w1) as [cs1 H1];
      [intros; eexists; apply leaveChannel_res|];
    change (Promise_map this rs (fun channel _ => leaveChannel this id channel))
      with (socketLeaveChannels this id rs) in H1;
    destruct (socketLeaveChannels this id rs w1) as [r1 w2 l2] end.
  cbn in H1. subst r1. cbn.
  match goal with |- context [Promise_map this ?rs ?f w2] =>
    destruct (Promise_map_res rs f w2) as [cs2 H2];
      [intros; apply roomCleanup_res|];
    destruct (Promise_map this rs f w2) as [r2 w3 l3] end.
  cbn in H2. subst r2. cbn.
  destruct (state_removeSocket this id (wS w3)) as [[[]|e] s4]; cbn;
    rewrite <- ?app_assoc; cbn; split; reflexivity.
Qed.

Lemma flat_map_silent X (f : event -> list X) l :
  Forall (fun ev => f ev = []) l -> flat_map f l = [].
Proof.
  induction 1 as [|ev l Hev _ IH]; cbn; [reflexivity|].
  rewrite Hev, IH. reflexivity.
Qed.

Ltac silent_leaf := cbn; reflexivity.

Lemma socketLeaveChannels_userSockets id channels :
  emits (fun ev => userSocketsFailure ev = [])
        (socketLeaveChannels this id channels).
Proof. unfold_methods. emits_with silent_leaf. Qed.

Lemma roomCleanups_userSockets id rooms counts :
  emits (fun ev => userSocketsFailure ev = [])
        (Promise_map this rooms (roomCleanup this id counts)).
Proof. unfold_methods. emits_with silent_leaf. Qed.




(** ** The per-room cleanup of a removed socket *)

Section Projection.

Variable X : Type.
Variable p : event -> list X.

Lemma settleEach_proj A C (f : A -> nat -> M C) (g : nat * A -> list X) l :
  (forall a i w, flat_map p (evs (f a i w)) = g (i, a)) ->
  forall w : world, flat_map p (evs (settleEach f l w)) = flat_map g l.
Proof.
  intro Hf. induction l as [|[i a] l IH]; intro w; cbn [settleEach].
  - reflexivity.
  - unfold bind at 1, attempt. cbn [fst snd].
    specialize (Hf a i w). destruct (f a i w) as [r w1 l1]. cbn in Hf.
    unfold bind at 1. specialize (IH w1).
    destruct (settleEach f l w1) as [[rs|e] w2 l2]; cbn in *;
      rewrite ?app_nil_r, flat_map_app, Hf, IH; reflexivity.
Qed.

Lemma Promise_map_proj A C (items : list A) (f : A -> nat -> M C)
                       (g : nat * A -> list X) (w : world) :
  (forall a i w', flat_map p (evs (f a i w')) = g (i, a)) ->
  flat_map p (evs (Promise_map this items f w))
    = flat_map g (scheduled this items).
Proof.
  intro Hf. unfold Promise_map, bind.
  pose proof (settleEach_proj f g (scheduled this items) Hf w) as H.
  destruct (settleEach f (scheduled this items) w) as [[rs|e] w1 l1];
    cbn in *; [|exact H].
  destruct (firstError rs); cbn; rewrite app_nil_r; exact H.
Qed.

End Projection.

Lemma scheduled_from A (items pre : list A) k :
  length pre = k ->
  flat_map (fun i => match nth_error (pre ++ items) i with
                     | Some a => [(i, a)]
                     | None => []
                     end) (seq k (length items))
    = combine (seq k (length items)) items.
Proof.
  revert pre k. induction items as [|a items IH]; intros pre k Hk; cbn.
  - reflexivity.
  - rewrite nth_error_app2 by lia. subst k. rewrite Nat.sub_diag. cbn.
    f_equal. specialize (IH (pre ++ [a]) (S (length pre))).
    rewrite <- app_assoc in IH. cbn in IH. apply IH.
    rewrite length_app. cbn. lia.
Qed.

Lemma scheduled_perm A (items : list A) :
  (forall n, Permutation (mapOrder this n) (seq 0 n)) ->
  Permutation (scheduled this items) (combine (seq 0 (length items)) items).
Proof.
  intro Hp. unfold scheduled.
  rewrite <- (scheduled_from items [] (k := 0) eq_refl). cbn [app].
  apply Permutation_flat_map, Hp.
Qed.



Ltac outside_leaf := cbn; exact I.

Lemma socketLeaveChannels_outside id channels :
  emits outsideCleanup (socketLeaveChannels this id channels).
Proof. unfold_methods. emits_with outside_leaf. Qed.


Lemma flat_map_single X Y (f : X -> Y) l :
  flat_map (fun x => [f x]) l = map f l.
Proof. induction l; cbn; congruence. Qed.

Lemma roomCleanup_evs id counts r i (w : world) :
  exists enable,
    evs (roomCleanup this id counts r i w) =
      SocketLeftEcho id r (nth_error counts i) None ::
      (if truthy (nth_error counts i) then []
       else evs (leaveRoom this r w) ++
            evs (getNotifySettings this r (st (leaveRoom this r w))) ++
            [UserLeftRoomReport (userName this) r enable]).
Proof.
  unfold roomCleanup, socketLeftEcho, userLeftRoomReport, bind, emit. cbn.
  destruct (truthy _); cbn; [exists None; reflexivity|].
  pose proof (leaveRoom_res r w) as H.
  destruct (leaveRoom this r w) as [r1 w1 l1]. cbn in H. subst r1. cbn.
  destruct (getNotifySettings_res r w1) as [info Hi].
  destruct (getNotifySettings this r w1) as [r2 w2 l2]. cbn in Hi. subst r2.
  cbn. exists (enableUserlistUpdates info). reflexivity.
Qed.

Lemma leaveRoom_quiet X (p : event -> list X) r :
  (forall c, p (Call c) = []) -> (forall n e i, p (ServerEmit n e i) = []) ->
  emits (fun ev => p ev = []) (leaveRoom this r).
Proof. intros Hc Hs. unfold_methods. emits_with ltac:(auto). Qed.

Lemma getNotifySettings_quiet X (p : event -> list X) r :
  (forall c, p (Call c) = []) ->
  emits (fun ev => p ev = []) (getNotifySettings this r).
Proof. intros Hc. unfold_methods. emits_with ltac:(auto). Qed.

Lemma leaveRoom_lookup r (w : world) :
  flat_map roomLookup (evs (leaveRoom this r w)) = [r].
Proof.
  unfold_all. collab_next; [|reflexivity]. collab_next; reflexivity.
Qed.

Lemma getNotifySettings_lookup r (w : world) :
  flat_map roomLookup (evs (getNotifySettings this r w)) = [r].
Proof.
  unfold_all. collab_next; [|reflexivity]. collab_next; reflexivity.
Qed.

Lemma leaveRoom_roster r (w : world) :
  (forall name s, fst (state_getRoom this name s) = Ok {| room_name := name |}) ->
  flat_map rosterLeave (evs (leaveRoom this r w)) = [r].
Proof.
  intro Hg. unfold_all. rewrite Hg. cbn. repeat collab_next; reflexivity.
Qed.








(** * Further properties *)

(** ** What a method leaves alone *)

Lemma untouched_bind X (f : world -> X) A C (m : M A) (k : A -> M C) :
  untouched f m -> (forall a, untouched f (k a)) -> untouched f (bind m k).
Proof.
  intros Hm Hk w. unfold bind. specialize (Hm w).
  destruct (m w) as [[a|e] w1 l1]; cbn in *; auto.
  specialize (Hk a w1). destruct (k a w1); cbn in *. congruence.
Qed.

Lemma untouched_catch X (f : world -> X) A (m : M A) (h : error -> M A) :
  untouched f m -> (forall e, untouched f (h e)) -> untouched f (catch m h).
Proof.
  intros Hm Hh w. unfold catch. specialize (Hm w).
  destruct (m w) as [[a|e] w1 l1]; cbn in *; auto.
  specialize (Hh e w1). destruct (h e w1); cbn in *. congruence.
Qed.

Lemma untouched_attempt X (f : world -> X) A (m : M A) :
  untouched f m -> untouched f (attempt m).
Proof.
  intros Hm w. unfold attempt. specialize (Hm w).
  destruct (m w); cbn in *; auto.
Qed.

Lemma untouched_all3 X (f : world -> X) A1 A2 A3
      (a : M A1) (b : M A2) (c : M A3) :
  untouched f a -> untouched f b -> untouched f c ->
  untouched f (Promise_all3 a b c).
Proof.
  intros Ha Hb Hc w. unfold Promise_all3. specialize (Ha w).
  destruct (a w) as [ra w1 l1]. specialize (Hb w1).
  destruct (b w1) as [rb w2 l2]. specialize (Hc w2).
  destruct (c w2) as [rc w3 l3]. cbn in *. congruence.
Qed.

Lemma untouched_settleEach X (f : world -> X) A C (g : A -> nat -> M C) l :
  (forall a i, untouched f (g a i)) -> untouched f (settleEach g l).
Proof.
  intro Hg. induction l as [|ia l IH]; cbn [settleEach].
  - intro w. reflexivity.
  - apply untouched_bind; [apply untouched_attempt, Hg|intro r].
    apply untouched_bind; [exact IH|intro rs]. intro w. reflexivity.
Qed.

Lemma untouched_map X (f : world -> X) A C
      (items : list A) (g : A -> nat -> M C) :
  (forall a i, untouched f (g a i)) -> untouched f (Promise_map this items g).
Proof.
  intro Hg. unfold Promise_map.
  apply untouched_bind; [apply untouched_settleEach, Hg|intro rs].
  destruct (firstError rs); intro w; reflexivity.
Qed.

Lemma untouched_using X (f : world -> X) A (lock : M string) (body : M A) :
  untouched f lock ->
  (forall lk, untouched f (this_lock_dispose this lk)) ->
  untouched f body -> untouched f (Promise_using this lock body).
Proof.
  intros Hl Hd Hb. unfold Promise_using.
  apply untouched_bind; [exact Hl|intro lk].
  apply untouched_bind; [apply untouched_attempt, Hb|intro r].
  apply untouched_bind; [apply Hd|intros _].
  destruct r; intro w; reflexivity.
Qed.

Lemma untouched_timeout_try X (f : world -> X) name id channel ev ms :
  (forall w b c,
     f {| wS := wS w; wU := wU w; wT := wT w; wB := b; clock := c |} = f w) ->
  untouched f
    (Promise_timeout
       (Promise_try (this_bus_emit this name id channel)
                    (eventToPromise this ev)) ms).
Proof.
  intros Hf w. unfold Promise_timeout, Promise_try, this_bus_emit, onBus,
    eventToPromise, advance. cbn.
  destruct (fst (bus_emit this name id channel (wB w))); cbn.
  - destruct (fst (bus_eventToPromise this ev _)); cbn;
      [destruct (_ <? _)%N; cbn|]; apply Hf.
  - destruct (_ <? _)%N; cbn; apply Hf.
Qed.

(** Splits a method into its calls, each of which leaves the part of the
    world in question alone by computation. *)
Ltac untouched_tac :=
  repeat first
    [ apply untouched_timeout_try; intros; reflexivity
    | apply untouched_map; intros
    | apply untouched_using; [| intro |]
    | apply untouched_all3
    | apply untouched_attempt
    | apply untouched_bind; [|intro]
    | apply untouched_catch; [|intro]
    | match goal with
      | |- untouched _ (if ?b then _ else _) => destruct b
      | |- untouched _ (match ?x with _ => _ end) => destruct x
      end
    | (intro; reflexivity) ].

Ltac bus_leaf := cbn; exact I.

(** X1: joining, leaving, registering and removing a socket never go to
    the cluster bus: they publish nothing, wait for nothing, and so take
    no time waiting for an acknowledgement. *)
Theorem socket_methods_leave_bus_alone id roomName isLocalCall :
  (emits notBus (joinSocketToRoom this id roomName isLocalCall) /\
   untouched wB (joinSocketToRoom this id roomName isLocalCall) /\
   untouched clock (joinSocketToRoom this id roomName isLocalCall)) /\
  (emits notBus (leaveSocketFromRoom this id roomName isLocalCall) /\
   untouched wB (leaveSocketFromRoom this id roomName isLocalCall) /\
   untouched clock (leaveSocketFromRoom this id roomName isLocalCall)) /\
  (emits notBus (removeUserSocket this id) /\
   untouched wB (removeUserSocket this id) /\
   untouched clock (removeUserSocket this id)) /\
  (emits notBus (addUserSocket this id) /\
   untouched wB (addUserSocket this id) /\
   untouched clock (addUserSocket this id)).
Proof.
  repeat split; unfold_methods;
    lazymatch goal with
    | |- emits _ _ => emits_with bus_leaf
    | |- untouched _ _ => unfold_calls; untouched_tac
    end.
Qed.

(** X2: evicting the user from a room never goes to the transport: the
    sockets are told to leave over the bus only, and the transport's
    subscriptions stay as they were. *)
Theorem removeFromRoom_leaves_transport_alone roomName :
  emits notTransport (removeFromRoom this roomName) /\
  untouched wT (removeFromRoom this roomName).
Proof.
  split; unfold_methods;
    lazymatch goal with
    | |- emits _ _ => emits_with bus_leaf
    | |- untouched _ _ => unfold_calls; untouched_tac
    end.
Qed.

(** X3: a join never unsubscribes a socket: it makes no call of
    [transport.leaveChannel], so once the room was found and joined the
    transport is left as [joinChannel] left it, also when the join fails
    and is compensated. *)
Theorem joinSocketToRoom_never_unsubscribes id roomName isLocalCall :
  emits (fun ev => forall i c, ev <> Call (C_transport_leaveChannel i c))
        (joinSocketToRoom this id roomName isLocalCall) /\
  (forall (w : world) lk u1 room s1 s2,
     userState_lockToRoom this roomName (lockTTL this) (wU w) = (Ok lk, u1) ->
     state_getRoom this roomName (wS w) = (Ok room, s1) ->
     room_join this room (userName this) s1 = (Ok tt, s2) ->
     wT (st (joinSocketToRoom this id roomName isLocalCall w))
       = snd (transport_joinChannel this id roomName (wT w))).
Proof.
  split.
  - unfold_methods. emits_with ltac:(cbn; intros; discriminate).
  - intros w lk u1 room s1 s2 H1 H2 H3.
    unfold_all. rewrite H1. cbn. rewrite H2. cbn. rewrite H3. cbn.
    settle_all; reflexivity.
Qed.

(** ** When the lock, the room or the registration fails *)

(** X4: when the room lock cannot be had, [joinSocketToRoom],
    [leaveSocketFromRoom] and [removeFromRoom] reject with the lock's
    error and do nothing else: no other collaborator is called and
    nothing is reported. *)
Theorem lock_failure_stops id roomName isLocalCall (w : world) e u1 :
  userState_lockToRoom this roomName (lockTTL this) (wU w) = (Err e, u1) ->
  let w1 := {| wS := wS w; wU := u1; wT := wT w; wB := wB w;
               clock := clock w |} in
  let tried := [Call (C_userState_lockToRoom roomName (lockTTL this))] in
  joinSocketToRoom this id roomName isLocalCall w = Out (Err e) w1 tried /\
  leaveSocketFromRoom this id roomName isLocalCall w = Out (Err e) w1 tried /\
  removeFromRoom this roomName w = Out (Err e) w1 tried.
Proof.
  intro H. cbv zeta.
  unfold joinSocketToRoom, leaveSocketFromRoom, removeFromRoom,
    Promise_using, this_userState_lockToRoom, onUserState.
  unfold bind at 1 3 5. cbn. rewrite H. cbn. repeat split.
Qed.

(** X5: a join that fails before step 3, because the room is not found or
    the roster refuses the user, rejects with that error and releases the
    lock; there is no increment, no subscription and no compensation. *)
Theorem joinSocketToRoom_early_failure id roomName isLocalCall (w : world)
        lk u1 :
  userState_lockToRoom this roomName (lockTTL this) (wU w) = (Ok lk, u1) ->
  (forall e s1,
     state_getRoom this roomName (wS w) = (Err e, s1) ->
     joinSocketToRoom this id roomName isLocalCall w =
       Out (Err e)
           {| wS := s1; wU := lock_dispose this lk u1; wT := wT w;
              wB := wB w; clock := clock w |}
           [Call (C_userState_lockToRoom roomName (lockTTL this));
            Call (C_state_getRoom roomName);
            Call (C_lock_dispose lk)]) /\
  (forall room s1 e s2,
     state_getRoom this roomName (wS w) = (Ok room, s1) ->
     room_join this room (userName this) s1 = (Err e, s2) ->
     joinSocketToRoom this id roomName isLocalCall w =
       Out (Err e)
           {| wS := s2; wU := lock_dispose this lk u1; wT := wT w;
              wB := wB w; clock := clock w |}
           [Call (C_userState_lockToRoom roomName (lockTTL this));
            Call (C_state_getRoom roomName);
            Call (C_room_join room (userName this));
            Call (C_lock_dispose lk)]).
Proof.
  intro H1. split.
  - intros e s1 H2. unfold joinSocketToRoom, Promise_using, attempt.
    unfold_calls. unfold bind, throw. cbn. rewrite H1. cbn. rewrite H2.
    reflexivity.
  - intros room s1 e s2 H2 H3.
    unfold joinSocketToRoom, Promise_using, attempt.
    unfold_calls. unfold bind, throw. cbn. rewrite H1. cbn. rewrite H2. cbn.
    rewrite H3. reflexivity.
Qed.

(** X6: a join that rejects, at whatever point, has sent no notification:
    neither the "user joined room" report nor the "joined" echo. *)
Theorem joinSocketToRoom_failure_is_silent id roomName isLocalCall
        (w : world) e :
  res (joinSocketToRoom this id roomName isLocalCall w) = Err e ->
  filter isNotification (evs (joinSocketToRoom this id roomName isLocalCall w))
    = [].
Proof.
  unfold_all. settle_all; try discriminate; reflexivity.
Qed.

(** X7: a registration that fails is not cleaned up. When
    [state.addSocket] rejects, the per-user store is not called; when
    [userState.addSocket] rejects after the state store took the socket,
    the call rejects at once and the state store keeps the socket. *)
Theorem addUserSocket_registration_failure id (w : world) :
  (forall e s1,
     state_addSocket this id (userName this) (wS w) = (Err e, s1) ->
     addUserSocket this id w =
       Out (Err e)
           {| wS := s1; wU := wU w; wT := wT w; wB := wB w;
              clock := clock w |}
           [Call (C_state_addSocket id (userName this))]) /\
  (forall s1 e u1,
     state_addSocket this id (userName this) (wS w) = (Ok tt, s1) ->
     userState_addSocket this id (instanceUID this) (wU w) = (Err e, u1) ->
     addUserSocket this id w =
       Out (Err e)
           {| wS := s1; wU := u1; wT := wT w; wB := wB w;
              clock := clock w |}
           [Call (C_state_addSocket id (userName this));
            Call (C_userState_addSocket id (instanceUID this))]).
Proof.
  split.
  - intros e s1 H. unfold addUserSocket. unfold_calls. unfold bind. cbn.
    rewrite H. reflexivity.
  - intros s1 e u1 H1 H2. unfold addUserSocket. unfold_calls. unfold bind.
    cbn. rewrite H1. cbn. rewrite H2. reflexivity.
Qed.

(** X8: registering and removing a socket run without any room lock:
    neither [addUserSocket] nor [removeUserSocket] ever takes or releases
    one, although the removal changes the membership of every room the
    socket was in. *)
Theorem socket_cleanup_takes_no_lock id :
  emits notLocking (removeUserSocket this id) /\
  emits notLocking (addUserSocket this id).
Proof. split; unfold_methods; emits_with lock_leaf. Qed.

(** ** More on leaving a room *)

(** X9: a leave whose decrement resolved with [(njoined, hasChanged)]
    sends the "left" echo and the "user left room" report together, and
    exactly when [hasChanged]; the report carries the notification
    setting that was read, or none when the read failed. The room is
    looked up a second time, for the roster removal, exactly when
    [njoined] is 0. *)
Theorem leaveSocketFromRoom_notifications id roomName isLocalCall (w : world)
        lk u1 njoined hasChanged u2 info :
  userState_lockToRoom this roomName (lockTTL this) (wU w) = (Ok lk, u1) ->
  userState_removeSocketFromRoom this id roomName u1
    = (Ok (njoined, hasChanged), u2) ->
  res (getNotifySettings this roomName w) = Ok info ->
  filter isNotification
         (evs (leaveSocketFromRoom this id roomName isLocalCall w))
    = (if hasChanged
       then [SocketLeftEcho id roomName (Some njoined) (Some isLocalCall);
             UserLeftRoomReport (userName this) roomName
                                (enableUserlistUpdates info)]
       else []) /\
  flat_map roomLookup
           (evs (leaveSocketFromRoom this id roomName isLocalCall w))
    = roomName :: (if (njoined =? 0)%Z then [roomName] else []).
Proof.
  intros H1 H2. unfold_all. rewrite H1. cbn.
  settle_all.
  all: intros H3; rewrite H2 in *; cbn.
  all: repeat match goal with
         | H : (_, _) = (_, _) |- _ => inversion H; subst; clear H
         | H : Ok _ = Ok _ |- _ => inversion H; subst; clear H
         end.
  all: cbn in *; try discriminate; try congruence.
  all: repeat match goal with
         | H : ?b = _ |- context [if ?b then _ else _] => rewrite H
         end; split; reflexivity.
Qed.

(** X10: a leave always asks the transport to unsubscribe the socket,
    exactly once, whatever the store answers. When the decrement fails
    the call stops there: the roster is not touched and no notification
    is sent, but the socket has left the channel all the same. *)
Theorem leaveSocketFromRoom_unsubscribes id roomName isLocalCall (w : world)
        lk u1 :
  userState_lockToRoom this roomName (lockTTL this) (wU w) = (Ok lk, u1) ->
  flat_map channelLeave
           (evs (leaveSocketFromRoom this id roomName isLocalCall w))
    = [(id, roomName)] /\
  wT (st (leaveSocketFromRoom this id roomName isLocalCall w))
    = snd (transport_leaveChannel this id roomName (wT w)) /\
  (forall e u2,
     userState_removeSocketFromRoom this id roomName u1 = (Err e, u2) ->
     wU (st (leaveSocketFromRoom this id roomName isLocalCall w))
       = lock_dispose this lk u2 /\
     flat_map rosterLeave
              (evs (leaveSocketFromRoom this id roomName isLocalCall w)) = [] /\
     filter isNotification
            (evs (leaveSocketFromRoom this id roomName isLocalCall w)) = []).
Proof.
  intros H1. unfold_all. rewrite H1. cbn.
  settle_all.
  all: repeat split; intros; try congruence;
    repeat match goal with
      | H : (_, _) = (_, _) |- _ => inversion H; subst; clear H
      end; reflexivity.
Qed.

(** X11: [leaveRoom] never rejects and touches the state store only. A
    room that cannot be looked up is passed over in silence: [leave] is
    not called and nothing is reported. A [leave] that fails is reported
    once, as a 'roomUserlist' failure. *)
Theorem leaveRoom_outcome roomName (w : world) :
  res (leaveRoom this roomName w) = Ok tt /\
  (wU (st (leaveRoom this roomName w)) = wU w /\
   wT (st (leaveRoom this roomName w)) = wT w /\
   wB (st (leaveRoom this roomName w)) = wB w /\
   clock (st (leaveRoom this roomName w)) = clock w) /\
  match state_getRoom this roomName (wS w) with
  | (Err _, s1) =>
      wS (st (leaveRoom this roomName w)) = s1 /\
      evs (leaveRoom this roomName w) = [Call (C_state_getRoom roomName)]
  | (Ok room, s1) =>
      wS (st (leaveRoom this roomName w))
        = snd (room_leave this room (userName this) s1) /\
      evs (leaveRoom this roomName w) =
        [Call (C_state_getRoom roomName);
         Call (C_room_leave room (userName this))] ++
        match fst (room_leave this room (userName this) s1) with
        | Ok _ => []
        | Err e =>
            [ServerEmit "storeConsistencyFailure" e
               {| info_roomName := Some roomName; info_id := None;
                  info_opType := "roomUserlist";
                  info_userName := Some (userName this) |}]
        end
  end.
Proof.
  unfold_all. settle_all; repeat split.
  destruct a0. reflexivity.
Qed.

(** X12: [getNotifySettings] never rejects and never reports: when the
    room cannot be looked up or its settings cannot be read it resolves
    with the empty object, whose [enableUserlistUpdates] is undefined;
    otherwise with what the room answered. It touches the state store
    only and makes no other call. *)
Theorem getNotifySettings_outcome roomName (w : world) :
  res (getNotifySettings this roomName w) =
    Ok match state_getRoom this roomName (wS w) with
       | (Ok room, s1) =>
           match fst (room_getNotificationsInfo this room s1) with
           | Ok info => info
           | Err _ => emptyObject
           end
       | (Err _, _) => emptyObject
       end /\
  (wU (st (getNotifySettings this roomName w)) = wU w /\
   wT (st (getNotifySettings this roomName w)) = wT w /\
   wB (st (getNotifySettings this roomName w)) = wB w /\
   clock (st (getNotifySettings this roomName w)) = clock w) /\
  Forall (fun ev =>
            ev = Call (C_state_getRoom roomName) \/
            exists room, ev = Call (C_room_getNotificationsInfo room))
         (evs (getNotifySettings this roomName w)).
Proof.
  unfold_all. settle_all; repeat split;
    repeat first [apply Forall_nil | apply Forall_cons]; eauto.
Qed.

(** ** More on removing a socket *)

Lemma scheduled_nil A : scheduled this (@nil A) = [].
Proof.
  unfold scheduled. cbn [length].
  induction (mapOrder this 0) as [|i l IH]; cbn; [reflexivity|].
  destruct i; cbn; exact IH.
Qed.

Lemma Promise_map_nil A C (f : A -> nat -> M C) (w : world) :
  Promise_map this [] f w = Out (Ok []) w [].
Proof. unfold Promise_map. rewrite scheduled_nil. reflexivity. Qed.

Lemma unindexed X (h : string -> list X) l k :
  flat_map (fun ir : nat * string => h (snd ir)) (combine (seq k (length l)) l)
    = flat_map h l.
Proof.
  revert k. induction l as [|a l IH]; intro k; cbn; [reflexivity|].
  rewrite IH. reflexivity.
Qed.

Lemma roomCleanups_quiet X (p : event -> list X) id rooms counts :
  (forall c, p (Call c) = []) -> (forall n e i, p (ServerEmit n e i) = []) ->
  (forall i r n l, p (SocketLeftEcho i r n l) = []) ->
  (forall u r en, p (UserLeftRoomReport u r en) = []) ->
  emits (fun ev => p ev = [])
        (Promise_map this rooms (roomCleanup this id counts)).
Proof. intros. unfold_methods. emits_with ltac:(auto). Qed.

Lemma socketLeaveChannels_quiet X (p : event -> list X) id channels :
  (forall c, p (Call c) = []) -> (forall n e i, p (ServerEmit n e i) = []) ->
  emits (fun ev => p ev = []) (socketLeaveChannels this id channels).
Proof. intros. unfold_methods. emits_with ltac:(auto). Qed.

(** X13: [removeUserSocket] sends the "socket disconnected" echo, with the
    connection count of the store or 0 when there is none, and calls
    [state.removeSocket], each exactly once, when the store's socket
    removal resolved; when that removal rejected it does neither. *)
Theorem removeUserSocket_disconnect id (w : world) :
  flat_map disconnectEcho (evs (removeUserSocket this id w)) =
    match fst (userState_removeSocket this id (wU w)) with
    | Ok (_, _, nconnected) => [(id, orZero nconnected)]
    | Err _ => []
    end /\
  flat_map stateRemoval (evs (removeUserSocket this id w)) =
    match fst (userState_removeSocket this id (wU w)) with
    | Ok _ => [id]
    | Err _ => []
    end.
Proof.
  destruct (removeUserSocket_course id w) as [_ Hc].
  destruct (fst (userState_removeSocket this id (wU w)))
    as [[[rooms counts] nconnected]|e].
  - rewrite Hc. cbn [flat_map disconnectEcho stateRemoval app].
    rewrite !flat_map_app.
    rewrite (flat_map_silent disconnectEcho
               (socketLeaveChannels_quiet disconnectEcho id _
                  (fun _ => eq_refl) (fun _ _ _ => eq_refl) _)).
    rewrite (flat_map_silent disconnectEcho
               (roomCleanups_quiet disconnectEcho id _ _
                  (fun _ => eq_refl) (fun _ _ _ => eq_refl)
                  (fun _ _ _ _ => eq_refl) (fun _ _ _ => eq_refl) _)).
    rewrite (flat_map_silent stateRemoval
               (l := evs (socketLeaveChannels this id _ _))).
    2: { unfold_methods. emits_with ltac:(cbn; reflexivity). }
    rewrite (flat_map_silent stateRemoval (l := evs (Promise_map this _ _ _))).
    2: { unfold_methods. emits_with ltac:(cbn; reflexivity). }
    cbn. destruct (fst (state_removeSocket this id _)); split; reflexivity.
  - destruct Hc as [_ ->]. split; reflexivity.
Qed.

(** X14: when the store names no room for the removed socket (the list
    is undefined or empty), [removeUserSocket] goes straight to the
    disconnect echo and [state.removeSocket]: no channel is left, no room
    is looked up, whatever order [Promise.map] would take. *)
Theorem removeUserSocket_no_rooms id (w : world) rooms counts nconnected u1 :
  userState_removeSocket this id (wU w)
    = (Ok (rooms, counts, nconnected), u1) ->
  orDefault rooms [] = [] ->
  evs (removeUserSocket this id w) =
    [Call (C_userState_removeSocket id);
     SocketDisconnectEcho id (orZero nconnected);
     Call (C_state_removeSocket id)] ++
    match fst (state_removeSocket this id (wS w)) with
    | Err e =>
        [ServerEmit "storeConsistencyFailure" e
           {| info_roomName := None; info_id := Some id;
              info_opType := "userSockets";
              info_userName := Some (userName this) |}]
    | Ok _ => []
    end.
Proof.
  intros E1 Hr. destruct (removeUserSocket_course id w) as [_ Hc].
  rewrite E1 in Hc. cbn [fst snd] in Hc. rewrite Hr in Hc.
  unfold socketLeaveChannels in Hc. rewrite !Promise_map_nil in Hc.
  cbn in Hc. exact Hc.
Qed.

Lemma removeUserSocket_proj_idx X (p : event -> list X)
      (g : nat * string -> list X) id (w : world)
      rooms counts nconnected u1 :
  userState_removeSocket this id (wU w)
    = (Ok (rooms, counts, nconnected), u1) ->
  (forall n, Permutation (mapOrder this n) (seq 0 n)) ->
  (forall ev, outsideCleanup ev -> p ev = []) ->
  (forall r i w',
     flat_map p (evs (roomCleanup this id (orDefault counts []) r i w'))
       = g (i, r)) ->
  Permutation (flat_map p (evs (removeUserSocket this id w)))
    (flat_map g (combine (seq 0 (length (orDefault rooms [])))
                         (orDefault rooms []))).
Proof.
  intros E1 Hperm Hout Hitem.
  destruct (removeUserSocket_course id w) as [_ Hc].
  rewrite E1 in Hc. cbn [fst snd] in Hc. rewrite Hc.
  cbn [flat_map]. rewrite Hout by exact I. cbn [app].
  rewrite !flat_map_app.
  rewrite (flat_map_silent p
             (l := evs (socketLeaveChannels this id _ _))).
  2: { eapply Forall_impl; [exact Hout|apply socketLeaveChannels_outside]. }
  rewrite (flat_map_silent p (l := _ :: _ :: _)).
  2: { repeat constructor; try (apply Hout; exact I).
       destruct (fst (state_removeSocket this id _));
         repeat constructor; apply Hout; exact I. }
  rewrite app_nil_r. cbn [app].
  rewrite (Promise_map_proj p _ (roomCleanup this id _) g).
  2: { intros. apply Hitem. }
  apply Permutation_flat_map, scheduled_perm, Hperm.
Qed.

(** X15: when the store names the rooms but gives no remaining counts
    (the list is undefined), every room counts as emptied: each gets its
    echo, with an undefined count, and each is reported as left. *)
Theorem removeUserSocket_no_counts id (w : world) rooms nconnected u1 :
  userState_removeSocket this id (wU w)
    = (Ok (Some rooms, None, nconnected), u1) ->
  (forall n, Permutation (mapOrder this n) (seq 0 n)) ->
  Permutation (flat_map (leftEcho id) (evs (removeUserSocket this id w)))
              (map (fun r => (r, None)) rooms) /\
  Permutation (flat_map leftReport (evs (removeUserSocket this id w))) rooms.
Proof.
  intros E1 Hperm. split.
  - rewrite <- flat_map_single.
    rewrite <- (unindexed (fun r => [(r, @None Z)]) rooms 0).
    apply (removeUserSocket_proj_idx (leftEcho id)
             (fun ir => [(snd ir, None)]) id w E1 Hperm).
    + intros [] Ho; cbn in Ho; try contradiction; try reflexivity.
    + intros r i w'. destruct (roomCleanup_evs id [] r i w') as [en Hev].
      cbn [orDefault]. rewrite Hev.
      replace (nth_error (@nil Z) i) with (@None Z) by (destruct i; reflexivity).
      cbn [flat_map leftEcho truthy]. rewrite String.eqb_refl. cbn [app].
      rewrite !flat_map_app.
      rewrite (flat_map_silent _ (leaveRoom_quiet (leftEcho id) r
                                    (fun _ => eq_refl)
                                    (fun _ _ _ => eq_refl) w')).
      rewrite (flat_map_silent _ (getNotifySettings_quiet (leftEcho id) r
                                    (fun _ => eq_refl) _)).
      reflexivity.
  - rewrite <- (map_id rooms). rewrite <- flat_map_single.
    rewrite <- (unindexed (fun r => [r]) rooms 0).
    apply (removeUserSocket_proj_idx leftReport
             (fun ir => [snd ir]) id w E1 Hperm).
    + intros [] Ho; cbn in Ho; try contradiction; try reflexivity.
    + intros r i w'. destruct (roomCleanup_evs id [] r i w') as [en Hev].
      cbn [orDefault]. rewrite Hev.
      replace (nth_error (@nil Z) i) with (@None Z) by (destruct i; reflexivity).
      cbn [flat_map leftReport truthy app].
      rewrite !flat_map_app.
      rewrite (flat_map_silent _ (leaveRoom_quiet leftReport r
                                    (fun _ => eq_refl)
                                    (fun _ _ _ => eq_refl) w')).
      rewrite (flat_map_silent _ (getNotifySettings_quiet leftReport r
                                    (fun _ => eq_refl) _)).
      reflexivity.
Qed.

(** ** Leaving channels in bulk *)

Lemma leaveChannelMessage_res id channel (w : world) :
  res (leaveChannelMessage this id channel w) = Ok tt.
Proof.
  unfold leaveChannelMessage, catchReturn, catch, Promise_timeout,
    Promise_try, this_bus_emit, onBus, eventToPromise. cbn.
  destruct (fst (bus_emit this _ id channel (wB w))) as [[]|e]; cbn.
  - destruct (fst (bus_eventToPromise this _ _)) as [t [[]|e]|]; cbn;
      try destruct (t <? busAckTimeout this)%N; reflexivity.
  - destruct (0 <? busAckTimeout this)%N; reflexivity.
Qed.

Lemma paired X Y (f : X -> Y) l k :
  flat_map (fun ir : nat * X => [f (snd ir)]) (combine (seq k (length l)) l)
    = map f l.
Proof.
  revert k. induction l as [|a l IH]; intro k; cbn; [reflexivity|].
  rewrite IH. reflexivity.
Qed.

(** X16: [socketLeaveChannels] never rejects and asks the transport to
    leave every channel of the list exactly once, in whatever order: a
    leave that fails is reported and does not keep the others from being
    tried. Only the transport is touched. *)
Theorem socketLeaveChannels_tries_all id channels (w : world) :
  (forall n, Permutation (mapOrder this n) (seq 0 n)) ->
  (exists rs, res (socketLeaveChannels this id channels w) = Ok rs) /\
  Permutation
    (flat_map channelLeave (evs (socketLeaveChannels this id channels w)))
    (map (fun channel => (id, channel)) channels) /\
  wS (st (socketLeaveChannels this id channels w)) = wS w /\
  wU (st (socketLeaveChannels this id channels w)) = wU w /\
  wB (st (socketLeaveChannels this id channels w)) = wB w.
Proof.
  intro Hperm. split; [|split; [|repeat split]].
  - apply Promise_map_res. intros. eexists. apply leaveChannel_res.
  - unfold socketLeaveChannels.
    rewrite (Promise_map_proj channelLeave channels
               (fun channel _ => leaveChannel this id channel)
               (fun ir => [(id, snd ir)])).
    + rewrite (Permutation_flat_map _ (scheduled_perm channels Hperm)).
      rewrite (paired (fun channel => (id, channel)) channels 0).
      reflexivity.
    + intros channel i w'. unfold_all. collab_next; reflexivity.
  - revert w. change (untouched wS (socketLeaveChannels this id channels)).
    unfold_methods. unfold_calls. untouched_tac.
  - revert w. change (untouched wU (socketLeaveChannels this id channels)).
    unfold_methods. unfold_calls. untouched_tac.
  - revert w. change (untouched wB (socketLeaveChannels this id channels)).
    unfold_methods. unfold_calls. untouched_tac.
Qed.

(** X17: [channelLeaveSockets] never rejects, whatever the bus does, and
    publishes 'roomLeaveSocket' for every socket of the list exactly once,
    in whatever order. It touches the bus only, not the stores or the
    transport. *)
Theorem channelLeaveSockets_tells_all channel ids (w : world) :
  (forall n, Permutation (mapOrder this n) (seq 0 n)) ->
  (exists rs, res (channelLeaveSockets this channel ids w) = Ok rs) /\
  Permutation
    (flat_map busLeave (evs (channelLeaveSockets this channel ids w)))
    (map (fun id => (id, channel)) ids) /\
  wS (st (channelLeaveSockets this channel ids w)) = wS w /\
  wU (st (channelLeaveSockets this channel ids w)) = wU w /\
  wT (st (channelLeaveSockets this channel ids w)) = wT w.
Proof.
  intro Hperm. split; [|split; [|repeat split]].
  - apply Promise_map_res. intros. eexists. apply leaveChannelMessage_res.
  - unfold channelLeaveSockets.
    rewrite (Promise_map_proj busLeave ids
               (fun id _ => leaveChannelMessage this id channel)
               (fun ir => [(snd ir, channel)])).
    + rewrite (Permutation_flat_map _ (scheduled_perm ids Hperm)).
      rewrite (paired (fun id => (id, channel)) ids 0).
      reflexivity.
    + intros id i w'.
      unfold leaveChannelMessage, catchReturn, catch, Promise_timeout,
        Promise_try, this_bus_emit, onBus, eventToPromise. cbn.
      destruct (fst (bus_emit this _ id channel (wB w'))) as [[]|e]; cbn.
      * destruct (fst (bus_eventToPromise this _ _)) as [t [[]|e]|]; cbn;
          try destruct (t <? busAckTimeout this)%N; reflexivity.
      * destruct (0 <? busAckTimeout this)%N; reflexivity.
  - revert w. change (untouched wS (channelLeaveSockets this channel ids)).
    unfold_methods. unfold_calls. untouched_tac.
  - revert w. change (untouched wU (channelLeaveSockets this channel ids)).
    unfold_methods. unfold_calls. untouched_tac.
  - revert w. change (untouched wT (channelLeaveSockets this channel ids)).
    unfold_methods. unfold_calls. untouched_tac.
Qed.

(** X18: [leaveChannelMessage] publishes once and then waits for the
    acknowledgement named after the socket and the channel; the wait
    lasts until the acknowledgement settles or until the timeout,
    whichever comes first. When publishing throws, no wait is set up and
    no time passes. *)
Theorem leaveChannelMessage_wait id channel (w : world) :
  let published := bus_emit this "roomLeaveSocket" id channel (wB w) in
  let name := bus_makeSocketRoomLeftName this id channel in
  evs (leaveChannelMessage this id channel w) =
    Call (C_bus_emit "roomLeaveSocket" id channel) ::
    match fst published with
    | Ok _ => [Call (C_eventToPromise name)]
    | Err _ => []
    end /\
  clock (st (leaveChannelMessage this id channel w)) =
    (clock w +
     match fst published with
     | Ok _ =>
         match fst (bus_eventToPromise this name (snd published)) with
         | Settled t _ => N.min t (busAckTimeout this)
         | Pending => busAckTimeout this
         end
     | Err _ => 0
     end)%N.
Proof.
  cbv zeta.
  unfold leaveChannelMessage, catchReturn, catch, Promise_timeout,
    Promise_try, this_bus_emit, onBus, eventToPromise, advance. cbn.
  destruct (fst (bus_emit this _ id channel (wB w))) as [[]|e]; cbn.
  - destruct (fst (bus_eventToPromise this _ _)) as [t [[]|e]|]; cbn;
      try destruct (N.ltb_spec t (busAckTimeout this)); cbn;
      split; try reflexivity; f_equal; lia.
  - destruct (N.ltb_spec 0 (busAckTimeout this)); cbn;
      split; try reflexivity; lia.
Qed.

(** ** Evicting the user from a room *)

(** The whole course of [removeFromRoom] once the lock is held. *)
Lemma removeFromRoom_course roomName (w : world) lk u1 :
  userState_lockToRoom this roomName (lockTTL this) (wU w) = (Ok lk, u1) ->
  let cleared := userState_removeAllSocketsFromRoom this roomName u1 in
  let ids := match fst cleared with Ok ids => ids | Err _ => [] end in
  let w2 := {| wS := wS w; wU := snd cleared; wT := wT w; wB := wB w;
               clock := clock w |} in
  let o2 := channelLeaveSockets this roomName ids w2 in
  let w3 := if Nat.eqb (length ids) 0 then st o2
            else st (getNotifySettings this roomName (st o2)) in
  exists enable,
    res (removeFromRoom this roomName w) = Ok tt /\
    evs (removeFromRoom this roomName w) =
      Call (C_userState_lockToRoom roomName (lockTTL this)) ::
      Call (C_userState_removeAllSocketsFromRoom roomName) ::
      match fst cleared with
      | Ok _ => []
      | Err e =>
          [ServerEmit "storeConsistencyFailure" e
             {| info_roomName := Some roomName; info_id := None;
                info_opType := "roomUserlist";
                info_userName := Some (userName this) |}]
      end ++
      evs o2 ++
      (if Nat.eqb (length ids) 0 then []
       else evs (getNotifySettings this roomName (st o2)) ++
            [UserRemovedReport (userName this) roomName enable]) ++
      evs (leaveRoom this roomName w3) ++
      [Call (C_lock_dispose lk)].
Proof.
  intro H1. cbv zeta.
  unfold removeFromRoom, Promise_using, attempt, removeUserSocketsFromRoom,
    userRemovedReport, consistencyFailure.
  unfold_calls. unfold bind, catch, emit, ret, throw. cbn.
  rewrite H1. cbn.
  destruct (userState_removeAllSocketsFromRoom this roomName u1)
    as [[ids|e] u2]; cbn.
  - match goal with |- context [channelLeaveSockets this roomName ids ?w2] =>
      destruct (Promise_map_res ids
                  (fun id _ => leaveChannelMessage this id roomName) w2)
        as [cs Hcs];
        [intros; eexists; apply leaveChannelMessage_res|];
      change (Promise_map this ids
                (fun id _ => leaveChannelMessage this id roomName))
        with (channelLeaveSockets this roomName ids) in Hcs;
      destruct (channelLeaveSockets this roomName ids w2) as [r2 w3 l3] end.
    cbn in Hcs. subst r2. cbn.
    destruct (Nat.eqb (length ids) 0); cbn.
    + pose proof (leaveRoom_res roomName w3) as Hl.
      destruct (leaveRoom this roomName w3) as [r4 w4 l4]. cbn in Hl.
      subst r4. cbn. exists None. rewrite <- ?app_assoc. split; reflexivity.
    + destruct (getNotifySettings_res roomName w3) as [info Hi].
      destruct (getNotifySettings this roomName w3) as [r5 w5 l5].
      cbn in Hi. subst r5. cbn.
      pose proof (leaveRoom_res roomName w5) as Hl.
      destruct (leaveRoom this roomName w5) as [r4 w4 l4]. cbn in Hl.
      subst r4. cbn. exists (enableUserlistUpdates info).
      rewrite <- ?app_assoc. cbn. rewrite <- ?app_assoc. split; reflexivity.
  - unfold channelLeaveSockets. rewrite Promise_map_nil. cbn.
    match goal with |- context [leaveRoom this roomName ?w3] =>
      pose proof (leaveRoom_res roomName w3) as Hl;
      destruct (leaveRoom this roomName w3) as [r4 w4 l4] end.
    cbn in Hl. subst r4. cbn. exists None. split; reflexivity.
Qed.

(** What [channelLeaveSockets] shows of itself. *)
Lemma channelLeaveSockets_tells_all_aux channel ids (w : world) :
  (forall n, Permutation (mapOrder this n) (seq 0 n)) ->
  Permutation
    (flat_map busLeave (evs (channelLeaveSockets this channel ids w)))
    (map (fun id => (id, channel)) ids) /\
  flat_map removedReport (evs (channelLeaveSockets this channel ids w)) = [] /\
  flat_map roomLookup (evs (channelLeaveSockets this channel ids w)) = [].
Proof.
  intro Hperm. split; [|split].
  - unfold channelLeaveSockets.
    rewrite (Promise_map_proj busLeave ids
               (fun id _ => leaveChannelMessage this id channel)
               (fun ir => [(snd ir, channel)])).
    + rewrite (Permutation_flat_map _ (scheduled_perm ids Hperm)).
      rewrite (paired (fun id => (id, channel)) ids 0).
      reflexivity.
    + intros id i w'.
      unfold leaveChannelMessage, catchReturn, catch, Promise_timeout,
        Promise_try, this_bus_emit, onBus, eventToPromise. cbn.
      destruct (fst (bus_emit this _ id channel (wB w'))) as [[]|e]; cbn.
      * destruct (fst (bus_eventToPromise this _ _)) as [t [[]|e]|]; cbn;
          try destruct (t <? busAckTimeout this)%N; reflexivity.
      * destruct (0 <? busAckTimeout this)%N; reflexivity.
  - apply flat_map_silent. unfold_methods. emits_with ltac:(cbn; reflexivity).
  - apply flat_map_silent. unfold_methods. emits_with ltac:(cbn; reflexivity).
Qed.

(** X19: once the lock is held, [removeFromRoom] resolves, whatever the
    store, the bus and the roster do. When the store gives the removed
    sockets, each of them is told to leave over the bus exactly once, the
    "removed from room" report goes out exactly when some socket was
    removed, and the room is looked up once more for the final
    [leaveRoom] in either case. *)
Theorem removeFromRoom_outcome roomName (w : world) lk u1 :
  userState_lockToRoom this roomName (lockTTL this) (wU w) = (Ok lk, u1) ->
  res (removeFromRoom this roomName w) = Ok tt /\
  (forall ids u2,
     userState_removeAllSocketsFromRoom this roomName u1 = (Ok ids, u2) ->
     (forall n, Permutation (mapOrder this n) (seq 0 n)) ->
     Permutation (flat_map busLeave (evs (removeFromRoom this roomName w)))
                 (map (fun id => (id, roomName)) ids) /\
     map fst (flat_map removedReport (evs (removeFromRoom this roomName w)))
       = (if Nat.eqb (length ids) 0 then [] else [roomName]) /\
     flat_map roomLookup (evs (removeFromRoom this roomName w))
       = (if Nat.eqb (length ids) 0 then [roomName]
          else [roomName; roomName])).
Proof.
  intro H1. destruct (removeFromRoom_course roomName w H1) as (en & Hres & Hev).
  split; [exact Hres|]. intros ids u2 H2 Hperm.
  rewrite H2 in Hev. cbn [fst snd app] in Hev. rewrite Hev.
  cbn [flat_map busLeave removedReport roomLookup app].
  rewrite !flat_map_app.
  destruct (channelLeaveSockets_tells_all_aux roomName ids
              {| wS := wS w; wU := u2; wT := wT w; wB := wB w;
                 clock := clock w |} Hperm) as (Hb & Hr & Hk).
  rewrite Hr, Hk, leaveRoom_lookup.
  rewrite (flat_map_silent busLeave (l := evs (leaveRoom this roomName _))).
  2: { unfold_methods. emits_with ltac:(cbn; reflexivity). }
  rewrite (flat_map_silent removedReport
             (l := evs (leaveRoom this roomName _))).
  2: { unfold_methods. emits_with ltac:(cbn; reflexivity). }
  destruct (Nat.eqb (length ids) 0); cbn [flat_map app map].
  - rewrite !app_nil_r. repeat split. exact Hb.
  - rewrite !flat_map_app, getNotifySettings_lookup.
    rewrite (flat_map_silent busLeave
               (l := evs (getNotifySettings this roomName _))).
    2: { unfold_methods. emits_with ltac:(cbn; reflexivity). }
    rewrite (flat_map_silent removedReport
               (l := evs (getNotifySettings this roomName _))).
    2: { unfold_methods. emits_with ltac:(cbn; reflexivity). }
    cbn. rewrite !app_nil_r. repeat split. exact Hb.
Qed.

(** X20: when the store refuses to clear the room, [removeFromRoom]
    reports it as a 'roomUserlist' failure and goes on as if no socket
    had been removed: nothing is published on the bus, no report is sent,
    the user is still taken off the roster and the lock is released. *)
Theorem removeFromRoom_store_failure roomName (w : world) lk u1 e u2 :
  userState_lockToRoom this roomName (lockTTL this) (wU w) = (Ok lk, u1) ->
  userState_removeAllSocketsFromRoom this roomName u1 = (Err e, u2) ->
  let w2 := {| wS := wS w; wU := u2; wT := wT w; wB := wB w;
               clock := clock w |} in
  res (removeFromRoom this roomName w) = Ok tt /\
  evs (removeFromRoom this roomName w) =
    [Call (C_userState_lockToRoom roomName (lockTTL this));
     Call (C_userState_removeAllSocketsFromRoom roomName);
     ServerEmit "storeConsistencyFailure" e
       {| info_roomName := Some roomName; info_id := None;
          info_opType := "roomUserlist";
          info_userName := Some (userName this) |}] ++
    evs (leaveRoom this roomName w2) ++
    [Call (C_lock_dispose lk)].
Proof.
  intros H1 H2. cbv zeta.
  destruct (removeFromRoom_course roomName w H1) as (en & Hres & Hev).
  split; [exact Hres|].
  rewrite H2 in Hev. cbn [fst snd length Nat.eqb] in Hev.
  unfold channelLeaveSockets in Hev. rewrite Promise_map_nil in Hev.
  cbn in Hev. exact Hev.
Qed.

(** ** Evicting many users *)

Section EvictMany.

Variable state_getUser : string -> DS -> result string * DS.
Variable user_removeFromRoom : string -> string -> M unit.

(** X21: [removeRoomUsers] never rejects, whatever the lookups and the
    users' removals do. An undefined or empty list of names resolves with
    an empty list and touches nothing. Every name is looked up exactly
    once, in whatever order, also when earlier lookups or removals
    failed; and a user whose lookup fails is passed over: when every
    lookup fails, nothing but the lookups happens. *)
Theorem removeRoomUsers_never_rejects roomName userNames (w : world) :
  (exists rs,
     res (removeRoomUsers this state_getUser user_removeFromRoom
                          roomName userNames w) = Ok rs) /\
  (orDefault userNames [] = [] ->
   removeRoomUsers this state_getUser user_removeFromRoom
                   roomName userNames w = Out (Ok []) w []) /\
  ((forall n, Permutation (mapOrder this n) (seq 0 n)) ->
   (forall user w', flat_map userLookup
                      (evs (user_removeFromRoom user roomName w')) = []) ->
   Permutation
     (flat_map userLookup
        (evs (removeRoomUsers this state_getUser user_removeFromRoom
                              roomName userNames w)))
     (orDefault userNames [])) /\
  ((forall name s, exists e, fst (state_getUser name s) = Err e) ->
   Forall (fun ev => exists name, ev = Call (C_state_getUser name))
          (evs (removeRoomUsers this state_getUser user_removeFromRoom
                                roomName userNames w))).
Proof.
  split; [|split; [|split]].
  - unfold removeRoomUsers. apply Promise_map_res. intros name i w'.
    unfold catchReturn, catch.
    destruct (bind _ _ w') as [[[]|e] w1 l1]; cbn; eauto.
  - intro Hnil. unfold removeRoomUsers. rewrite Hnil.
    apply Promise_map_nil.
  - intros Hperm Hq. unfold removeRoomUsers.
    rewrite (Promise_map_proj userLookup (orDefault userNames []) _
               (fun ir => [snd ir])).
    + rewrite (Permutation_flat_map _ (scheduled_perm _ Hperm)).
      rewrite (paired (fun name : string => name) _ 0), map_id.
      reflexivity.
    + intros name i w'.
      unfold catchReturn, catch, bind, this_state_getUser, onState, ret.
      cbn. destruct (fst (state_getUser name (wS w'))) as [user|e]; cbn;
        [|reflexivity].
      match goal with |- context [user_removeFromRoom user roomName ?w1] =>
        specialize (Hq user w1);
        destruct (user_removeFromRoom user roomName w1) as [[[]|e] w2 l2] end;
        cbn in *; rewrite ?app_nil_r, Hq; reflexivity.
  - intro Hfail. revert w. change (emits (fun ev => exists name,
                                   ev = Call (C_state_getUser name))
                           (removeRoomUsers this state_getUser
                              user_removeFromRoom roomName userNames)).
    unfold removeRoomUsers. apply emits_map. intros name i w'.
    unfold catchReturn, catch, bind, this_state_getUser, onState, ret. cbn.
    destruct (Hfail name (wS w')) as [e He]. rewrite He. cbn.
    repeat constructor. eauto.
Qed.

End EvictMany.

(** ** What is notified, and what a successful join leaves out *)

(** X22: a join that resolves has made no compensating call: it never
    takes the socket out of the room or the channel, nor the user off
    the roster. *)
Theorem joinSocketToRoom_success_undoes_nothing id roomName isLocalCall
        (w : world) n :
  res (joinSocketToRoom this id roomName isLocalCall w) = Ok n ->
  Forall notUndoing (evs (joinSocketToRoom this id roomName isLocalCall w)).
Proof.
  intro H. apply joinSocketToRoom_ok in H.
  destruct H as (lk & u1 & room & s1 & s2 & enable & s3 & hc & u2 & t1 &
                 _ & _ & _ & _ & _ & _ & Hev).
  rewrite Hev.
  destruct hc; [destruct ((n =? 1)%Z && enable)|];
    repeat constructor.
Qed.

Ltac notify_leaf := cbn; eauto.

(** X23: the notifications of each method are about the acting user and
    the socket and room it was called for. A join sends nothing but its
    report and its echo, a leave nothing but the "left" echo and report,
    an eviction nothing but the "removed" report, and a socket removal
    nothing but "left" echoes without origin, "left" reports and the
    disconnect echo. *)
Theorem notifications_of_each_method id roomName isLocalCall :
  emits (notifiesOnly (fun ev =>
           ev = UserJoinRoomReport (userName this) roomName \/
           exists n, ev = SocketJoinEcho id roomName n isLocalCall))
        (joinSocketToRoom this id roomName isLocalCall) /\
  emits (notifiesOnly (fun ev =>
           (exists n, ev = SocketLeftEcho id roomName (Some n)
                                          (Some isLocalCall)) \/
           exists en, ev = UserLeftRoomReport (userName this) roomName en))
        (leaveSocketFromRoom this id roomName isLocalCall) /\
  emits (notifiesOnly (fun ev =>
           exists en, ev = UserRemovedReport (userName this) roomName en))
        (removeFromRoom this roomName) /\
  emits (notifiesOnly (fun ev =>
           (exists r n, ev = SocketLeftEcho id r n None) \/
           (exists r en, ev = UserLeftRoomReport (userName this) r en) \/
           exists n, ev = SocketDisconnectEcho id n))
        (removeUserSocket this id).
Proof.
  repeat split; unfold_methods; emits_with notify_leaf.
Qed.

(** * The whole of a socket removal *)

(** Where [removeUserSocket] leaves the world. *)
Lemma removeUserSocket_final id (w : world) :
  let w1 := {| wS := wS w;
               wU := snd (userState_removeSocket this id (wU w));
               wT := wT w; wB := wB w; clock := clock w |} in
  match fst (userState_removeSocket this id (wU w)) with
  | Err _ => st (removeUserSocket this id w) = w1
  | Ok (roomsRemoved, joinedSockets, _) =>
      let o1 := socketLeaveChannels this id (orDefault roomsRemoved []) w1 in
      let o2 := Promise_map this (orDefault roomsRemoved [])
                  (roomCleanup this id (orDefault joinedSockets []))
                  (st o1) in
      wU (st (removeUserSocket this id w)) = wU w1 /\
      wS (st (removeUserSocket this id w))
        = snd (state_removeSocket this id (wS (st o2)))
  end.
Proof.
  cbv zeta.
  assert (HU : forall rs cs (w' : world),
             wU (st (Promise_map this rs (roomCleanup this id cs)
                       (st (socketLeaveChannels this id rs w')))) = wU w').
  { intros rs cs w'.
    transitivity (wU (st (socketLeaveChannels this id rs w'))).
    - generalize (st (socketLeaveChannels this id rs w')).
      change (untouched wU (Promise_map this rs (roomCleanup this id cs))).
      unfold_methods. unfold_calls. untouched_tac.
    - revert w'. change (untouched wU (socketLeaveChannels this id rs)).
      unfold_methods. unfold_calls. untouched_tac. }
  unfold removeUserSocket, catch, bind,
    this_userState_removeSocket, onUserState, socketDisconnectEcho, emit,
    this_state_removeSocket, onState, consistencyFailure.
  cbn.
  destruct (userState_removeSocket this id (wU w))
    as [[[[roomsRemoved joinedSockets] nconnected]|e] u1]; cbn;
    [|reflexivity].
  match goal with |- context [socketLeaveChannels this id ?rs ?w1] =>
    specialize (HU rs (orDefault joinedSockets []) w1);
    destruct (Promise_map_res rs (fun channel _ => leaveChannel this id channel)
                w1) as [cs1 H1];
      [intros; eexists; apply leaveChannel_res|];
    change (Promise_map this rs (fun channel _ => leaveChannel this id channel))
      with (socketLeaveChannels this id rs) in H1;
    destruct (socketLeaveChannels this id rs w1) as [r1 w2 l2] end.
  cbn in H1, HU. subst r1. cbn.
  match goal with |- context [Promise_map this ?rs ?f w2] =>
    destruct (Promise_map_res rs f w2) as [cs2 H2];
      [intros; apply roomCleanup_res|];
    destruct (Promise_map this rs f w2) as [r2 w3 l3] end.
  cbn in H2, HU. subst r2. cbn.
  destruct (state_removeSocket this id (wS w3)) as [[[]|e] s4]; cbn;
    split; auto.
Qed.




(** ** Registering a socket *)

(** C9, amended: when both registrations of [addUserSocket] have
    resolved and the transport has the socket, the call resolves with the
    connection count. When the transport has no socket for [id], the
    [removeUserSocket] cleanup is run and the call rejects with the
    'noSocket' error whatever the cleanup achieved. The cleanup asks the
    per-user store once to remove the socket and leaves that store as the
    removal leaves it. When the removal resolves, the state store is asked
    once to remove the socket, after the cleanup of the rooms, and is left
    as its removal leaves it (for a socket that was in no room: the
    removal applied to the store as the registration left it); a refusal
    of the state store is reported as a 'userSockets' failure. When the
    removal of the per-user store is refused, the refusal is reported as
    a 'userSockets' failure and nothing else is done: the state store is
    not asked and keeps the registration. *)
Theorem addUserSocket_result id (w : world) s1 n u1 :
  state_addSocket this id (userName this) (wS w) = (Ok tt, s1) ->
  userState_addSocket this id (instanceUID this) (wU w) = (Ok n, u1) ->
  let w1 := {| wS := s1; wU := u1; wT := wT w; wB := wB w;
               clock := clock w |} in
  let registered := [Call (C_state_addSocket id (userName this));
                     Call (C_userState_addSocket id (instanceUID this))] in
  let info := {| info_roomName := None; info_id := Some id;
                 info_opType := "userSockets";
                 info_userName := Some (userName this) |} in
  let o := addUserSocket this id w in
  if transport_getSocket this id (wT w)
  then o = Out (Ok n) w1 registered
  else res o = Err (ChatServiceError "noSocket" "connection") /\
       st o = st (removeUserSocket this id w1) /\
       evs o = registered ++ evs (removeUserSocket this id w1) /\
       flat_map userRemoval (evs o) = [id] /\
       wU (st o) = snd (userState_removeSocket this id u1) /\
       match fst (userState_removeSocket this id u1) with
       | Ok (roomsRemoved, joinedSockets, _) =>
           let rooms := orDefault roomsRemoved [] in
           let w2 := {| wS := s1;
                        wU := snd (userState_removeSocket this id u1);
                        wT := wT w; wB := wB w; clock := clock w |} in
           let o2 := Promise_map this rooms
                       (roomCleanup this id (orDefault joinedSockets []))
                       (st (socketLeaveChannels this id rooms w2)) in
           flat_map stateRemoval (evs o) = [id] /\
           wS (st o) = snd (state_removeSocket this id (wS (st o2))) /\
           (rooms = [] ->
            wS (st o) = snd (state_removeSocket this id s1)) /\
           match fst (state_removeSocket this id (wS (st o2))) with
           | Ok _ => flat_map userSocketsFailure (evs o) = []
           | Err e => flat_map userSocketsFailure (evs o) = [(e, Some id)]
           end
       | Err e =>
           wS (st o) = s1 /\
           evs o = registered ++
                   [Call (C_userState_removeSocket id);
                    ServerEmit "storeConsistencyFailure" e info]
       end.
Proof.
  intros H1 H2. cbv zeta.
  unfold addUserSocket, bind, this_state_addSocket, this_userState_addSocket,
    this_transport_getSocket, onState, onUserState, throw, ret.
  cbn. rewrite H1. cbn. rewrite H2. cbn.
  destruct (transport_getSocket this id (wT w)); cbn; [reflexivity|].
  match goal with |- context [removeUserSocket this id ?w1] =>
    destruct (removeUserSocket_course id w1) as [Hres Hc];
    pose proof (removeUserSocket_final id w1) as Hf;
    destruct (removeUserSocket this id w1) as [r w2 l2] end.
  cbn in Hres, Hc, Hf. subst r. cbn. rewrite app_nil_r.
  repeat (split; [reflexivity|]).
  destruct (fst (userState_removeSocket this id u1))
    as [[[roomsRemoved joinedSockets] nconnected]|e].
  - destruct Hf as [HU HS]. rewrite Hc.
    cbn [flat_map userRemoval stateRemoval userSocketsFailure app].
    rewrite !flat_map_app.
    rewrite (flat_map_silent userRemoval
               (l := evs (socketLeaveChannels this id _ _))).
    2: { unfold_methods. emits_with ltac:(cbn; reflexivity). }
    rewrite (flat_map_silent userRemoval
               (l := evs (Promise_map this _ (roomCleanup this id _) _))).
    2: { unfold_methods. emits_with ltac:(cbn; reflexivity). }
    rewrite (flat_map_silent stateRemoval
               (l := evs (socketLeaveChannels this id _ _))).
    2: { unfold_methods. emits_with ltac:(cbn; reflexivity). }
    rewrite (flat_map_silent stateRemoval
               (l := evs (Promise_map this _ (roomCleanup this id _) _))).
    2: { unfold_methods. emits_with ltac:(cbn; reflexivity). }
    rewrite (flat_map_silent _ (socketLeaveChannels_userSockets _ _ _)).
    rewrite (flat_map_silent _ (roomCleanups_userSockets _ _ _ _)).
    cbn [app].
    split; [|split; [exact HU|split; [|split; [exact HS|split]]]].
    + destruct (fst (state_removeSocket this id _)); reflexivity.
    + destruct (fst (state_removeSocket this id _)); reflexivity.
    + intro Hr. rewrite HS, Hr. unfold socketLeaveChannels.
      rewrite !Promise_map_nil. cbn. rewrite ?Promise_map_nil. reflexivity.
    + destruct (fst (state_removeSocket this id _)) as [[]|e]; reflexivity.
  - destruct Hc as [_ ->]. subst w2. cbn. repeat split.
Qed.

End Properties.

(** * Executions on the reference collaborators *)
Lemma lock_released_witness :
  Mem.lockToRoom "lobby" 5000 (wU Runs.fresh)
    = (Ok "lobby",
       {| Mem.joined := []; Mem.connected := ["s1"; "s2"];
          Mem.locks := ["lobby"] |}) /\
  (releases Runs.reliable "lobby" "lobby"
     (joinSocketToRoom Runs.reliable "s1" "lobby" true Runs.fresh) /\
   releases Runs.reliable "lobby" "lobby"
     (leaveSocketFromRoom Runs.reliable "s1" "lobby" true Runs.fresh) /\
   releases Runs.reliable "lobby" "lobby"
     (removeFromRoom Runs.reliable "lobby" Runs.fresh)).
Proof.
  split; [reflexivity|].
  eapply (lock_released Runs.reliable "s1" "lobby" true Runs.fresh).
  reflexivity.
Defined.

Lemma joinSocketToRoom_report_witness :
  exists hasChanged enable : bool,
    filter isJoinReport
      (evs (joinSocketToRoom Runs.reliable "s1" "lobby" true Runs.fresh))
    = if hasChanged && (1 =? 1)%Z && enable
      then [UserJoinRoomReport "alice" "lobby"] else [].
Proof.
  destruct (joinSocketToRoom_report Runs.reliable "s1" "lobby" true
              Runs.fresh (n := 1%Z) eq_refl)
    as (lk & u1 & u2 & room & s1 & s2 & s3 & enable & hc & H).
  exists hc, enable. apply H.
Defined.

Lemma joinSocketToRoom_echo_witness :
  exists hasChanged : bool,
    filter isJoinEcho
      (evs (joinSocketToRoom Runs.reliable "s2" "lobby" false Runs.oneJoined))
    = if hasChanged then [SocketJoinEcho "s2" "lobby" 2 false] else [].
Proof.
  destruct (joinSocketToRoom_echo Runs.reliable "s2" "lobby" false
              Runs.oneJoined (n := 2%Z) eq_refl)
    as (lk & u1 & u2 & hc & H).
  exists hc. apply H.
Defined.

(** C2 as stated fails: the second socket of a user joins a room the
    user is already in, the store answers [njoined = 2] and
    [hasChanged = false], the join resolves and no echo goes out. *)
Lemma joinSocketToRoom_echo_missing :
  res (joinSocketToRoom Runs.reliable "s2" "lobby" true Runs.oneJoined)
    = Ok 2%Z /\
  filter isJoinEcho
    (evs (joinSocketToRoom Runs.reliable "s2" "lobby" true Runs.oneJoined))
    = [].
Proof. split; reflexivity. Qed.

(** The reference store keeps the law the count rests on: for a socket
    that is not in the room, an increment followed by a removal gives the
    membership back as it was. *)
Lemma Mem_filter_fresh (p : string * string -> bool) l :
  existsb p l = false -> filter (fun x => negb (p x)) l = l.
Proof.
  induction l as [|x l IH]; cbn; [reflexivity|].
  destruct (p x); cbn; [discriminate|]. intro H. rewrite IH; auto.
Qed.

Lemma Mem_compensation id room u :
  existsb (Mem.samePair (id, room)) (Mem.joined u) = false ->
  Mem.joined (snd (Mem.removeSocketFromRoom id room
                     (snd (Mem.addSocketToRoom id room u))))
    = Mem.joined u /\
  Mem.joined (snd (Mem.removeSocketFromRoom id room u)) = Mem.joined u.
Proof.
  intro H. unfold Mem.removeSocketFromRoom, Mem.addSocketToRoom.
  cbn [snd]. rewrite H. cbn [Mem.joined].
  rewrite filter_app, (Mem_filter_fresh _ _ H). cbn [filter].
  unfold Mem.samePair at 1. cbn [fst snd]. rewrite !String.eqb_refl.
  cbn. rewrite app_nil_r. split; reflexivity.
Qed.

(** On the reference store, whatever else is refused: a join that
    fails in step 3 for a socket that was not in the room leaves the
    count as it was, unless the compensating removal is refused. *)
Lemma Mem_join_count_restored
    faults ack order id room isLocalCall w lk u1 rm s1 s2 e :
  let this := Mem.this faults ack order in
  userState_lockToRoom this room (lockTTL this) (wU w) = (Ok lk, u1) ->
  state_getRoom this room (wS w) = (Ok rm, s1) ->
  room_join this rm (userName this) s1 = (Ok tt, s2) ->
  res (joinStep3 this rm id room
         {| wS := s2; wU := u1; wT := wT w; wB := wB w;
            clock := clock w |}) = Err e ->
  Mem.failing faults "userState.removeSocketFromRoom" = false ->
  existsb (Mem.samePair (id, room)) (Mem.joined (wU w)) = false ->
  Mem.count room (wU (st (joinSocketToRoom this id room isLocalCall w)))
    = Mem.count room (wU w).
Proof.
  intros this H1 H2 H3 H4 Hrm Hfresh.
  destruct (joinSocketToRoom_compensated this id room isLocalCall w
              H1 H2 H3 H4) as (_ & Hadd & Hfinal & _).
  rewrite Hfinal, Hadd. clear Hfinal Hadd H2 H3 H4.
  assert (Hj : Mem.joined u1 = Mem.joined (wU w)).
  { cbn in H1. unfold Mem.guarded, Mem.lockToRoom in H1.
    destruct (Mem.failing faults _); [discriminate|].
    destruct (Mem.mem room _); [discriminate|].
    injection H1 as _ <-. reflexivity. }
  rewrite <- Hj in Hfresh.
  destruct (Mem_compensation id room u1 Hfresh) as [Hboth Hone].
  cbn. unfold Mem.guarded. rewrite Hrm.
  unfold Mem.count. cbn [Mem.dispose Mem.joined]. rewrite <- Hj.
  destruct (Mem.failing faults "userState.addSocketToRoom"); cbn [snd].
  - rewrite Hone. reflexivity.
  - rewrite Hboth. reflexivity.
Qed.

Lemma joinSocketToRoom_compensation_witness :
  res (joinSocketToRoom Runs.noSubscription "s1" "lobby" true Runs.fresh)
    = Err (Rejection "transport.joinChannel") /\
  Mem.count "lobby"
    (wU (st (joinSocketToRoom Runs.noSubscription "s1" "lobby" true
                              Runs.fresh)))
    = Mem.count "lobby" (wU Runs.fresh).
Proof.
  destruct (joinSocketToRoom_compensation Runs.noSubscription
              "s1" "lobby" true Runs.fresh
              (lk := "lobby")
              (u1 := {| Mem.joined := []; Mem.connected := ["s1"; "s2"];
                        Mem.locks := ["lobby"] |})
              (room := {| room_name := "lobby" |})
              (s1 := {| Mem.roster := []; Mem.sockets := ["s1"; "s2"] |})
              (s2 := {| Mem.roster := ["lobby"];
                        Mem.sockets := ["s1"; "s2"] |})
              (e := Rejection "transport.joinChannel")
              eq_refl eq_refl eq_refl eq_refl)
    as (Hres & _ & _ & _ & Hcount).
  split; [exact Hres|].
  apply (Hcount (Mem.count "lobby")
           (fun u => existsb (Mem.samePair ("s1", "lobby")) (Mem.joined u)
                     = false))
    with (njoined := 0%Z) (hasChanged := true)
         (u4 := {| Mem.joined := []; Mem.connected := ["s1"; "s2"];
                   Mem.locks := ["lobby"] |}).
  - intros r t u. cbn. unfold Mem.guarded, Mem.lockToRoom. cbn.
    destruct (Mem.mem r (Mem.locks u)); reflexivity.
  - intros r t u Hu. cbn. unfold Mem.guarded, Mem.lockToRoom. cbn.
    destruct (Mem.mem r (Mem.locks u)); exact Hu.
  - intros l u. reflexivity.
  - intros u njoined hasChanged u' Hu Hrem. cbn in Hrem.
    unfold Mem.guarded in Hrem. cbn in Hrem.
    destruct (Mem_compensation "s1" "lobby" u Hu) as [Hj _].
    injection Hrem as _ _ <-. unfold Mem.count. cbn [Mem.joined].
    cbn [Mem.joined] in Hj.
    unfold Mem.removeSocketFromRoom, Mem.addSocketToRoom in Hj.
    cbn [snd Mem.joined] in Hj. rewrite Hj. reflexivity.
  - reflexivity.
  - reflexivity.
Defined.

(** C1 as stated fails: the transport refuses the subscription, the
    compensating removal is refused as well, and the join rejects with the
    store still counting the socket. *)
Lemma joinSocketToRoom_count_not_restored :
  res (joinSocketToRoom Runs.noCompensation "s1" "lobby" true Runs.fresh)
    = Err (Rejection "transport.joinChannel") /\
  Mem.count "lobby" (wU Runs.fresh) = 0%Z /\
  Mem.count "lobby"
    (wU (st (joinSocketToRoom Runs.noCompensation "s1" "lobby" true
                              Runs.fresh)))
    = 1%Z.
Proof. repeat split. Qed.

Lemma leaveSocketFromRoom_result_witness :
  res (leaveSocketFromRoom Runs.reliable "s1" "lobby" true Runs.oneJoined)
    = Ok 0%Z.
Proof.
  apply (proj1 (leaveSocketFromRoom_result Runs.reliable "s1" "lobby" true
                  Runs.oneJoined
                  (lk := "lobby")
                  (u1 := {| Mem.joined := [("s1", "lobby")];
                            Mem.connected := ["s1"; "s2"];
                            Mem.locks := ["lobby"] |})
                  eq_refl)
           0%Z true
           {| Mem.joined := []; Mem.connected := ["s1"; "s2"];
              Mem.locks := ["lobby"] |}).
  reflexivity.
Defined.

(** The compensation is no inverse of an increment that changed nothing:
    when the socket was in the room already and the subscription fails,
    the removal takes the earlier membership away. *)
Lemma joinSocketToRoom_rejoin_rolled_back :
  res (joinSocketToRoom Runs.noSubscription "s1" "lobby" true Runs.oneJoined)
    = Err (Rejection "transport.joinChannel") /\
  Mem.count "lobby" (wU Runs.oneJoined) = 1%Z /\
  Mem.count "lobby"
    (wU (st (joinSocketToRoom Runs.noSubscription "s1" "lobby" true
                              Runs.oneJoined)))
    = 0%Z.
Proof. repeat split. Qed.

(** C3 as stated fails: the store refuses the decrement, and the leave
    rejects with that error without any consistency-failure report. *)
Lemma leaveSocketFromRoom_propagates :
  res (leaveSocketFromRoom Runs.noDecrement "s1" "lobby" true Runs.oneJoined)
    = Err (Rejection "userState.removeSocketFromRoom") /\
  filter isConsistencyFailure
    (evs (leaveSocketFromRoom Runs.noDecrement "s1" "lobby" true
                              Runs.oneJoined))
    = [].
Proof. split; reflexivity. Qed.



(** The scenario of the spec, with the rooms taken last to first: three
    echoes, two reports. *)
Lemma removeUserSocket_three_rooms :
  length (flat_map (leftEcho "s1")
            (evs (removeUserSocket Runs.reversed "s1" Runs.threeRooms))) = 3
  /\
  flat_map leftReport
    (evs (removeUserSocket Runs.reversed "s1" Runs.threeRooms))
    = ["c"; "a"].
Proof. split; reflexivity. Qed.



Lemma addUserSocket_result_witness :
  res (addUserSocket Runs.reliable "s3" Runs.fresh)
    = Err (ChatServiceError "noSocket" "connection") /\
  Mem.connected (wU (st (addUserSocket Runs.reliable "s3" Runs.fresh)))
    = ["s1"; "s2"] /\
  Mem.sockets (wS (st (addUserSocket Runs.reliable "s3" Runs.fresh)))
    = ["s1"; "s2"] /\
  res (addUserSocket Runs.reliable "s1" Runs.fresh) = Ok 3%Z.
Proof.
  destruct (addUserSocket_result Runs.reliable "s3" Runs.fresh
              (s1 := {| Mem.roster := [];
                        Mem.sockets := ["s1"; "s2"; "s3"] |})
              (n := 3%Z)
              (u1 := {| Mem.joined := [];
                        Mem.connected := ["s1"; "s2"; "s3"];
                        Mem.locks := [] |})
              eq_refl eq_refl)
    as (Hres & _ & _ & _ & Huser & _ & _ & Hstate & _).
  split; [exact Hres|].
  split; [exact (f_equal Mem.connected Huser)|].
  split; [exact (f_equal Mem.sockets (Hstate eq_refl))|].
  exact (f_equal (@res _ _ _ _ _)
           (addUserSocket_result Runs.reliable "s1" Runs.fresh
              (s1 := {| Mem.roster := [];
                        Mem.sockets := ["s1"; "s2"; "s1"] |})
              (n := 3%Z)
              (u1 := {| Mem.joined := [];
                        Mem.connected := ["s1"; "s2"; "s1"];
                        Mem.locks := [] |})
              eq_refl eq_refl)).
Defined.

(** C9 as stated fails: the transport has no socket [s3] and the
    per-user store refuses to remove it; the call rejects with the
    'noSocket' error and the registration is still in both stores. When
    only the state store refuses, the registration stays there. *)
Lemma addUserSocket_registration_kept :
  res (addUserSocket Cases.noSocketRemoval "s3" Runs.fresh)
    = Err (ChatServiceError "noSocket" "connection") /\
  Mem.connected
    (wU (st (addUserSocket Cases.noSocketRemoval "s3" Runs.fresh)))
    = ["s1"; "s2"; "s3"] /\
  Mem.sockets
    (wS (st (addUserSocket Cases.noSocketRemoval "s3" Runs.fresh)))
    = ["s1"; "s2"; "s3"] /\
  res (addUserSocket Cases.noStateRemoval "s3" Runs.fresh)
    = Err (ChatServiceError "noSocket" "connection") /\
  Mem.sockets
    (wS (st (addUserSocket Cases.noStateRemoval "s3" Runs.fresh)))
    = ["s1"; "s2"; "s3"].
Proof. repeat split. Qed.

(** * Further executions on the reference collaborators *)

Lemma lock_failure_stops_witness :
  res (joinSocketToRoom Cases.noLock "s1" "lobby" true Runs.fresh)
    = Err (Rejection "userState.lockToRoom") /\
  evs (removeFromRoom Cases.noLock "lobby" Runs.fresh)
    = [Call (C_userState_lockToRoom "lobby" 5000)].
Proof.
  destruct (lock_failure_stops Cases.noLock "s1" "lobby" true Runs.fresh
              (e := Rejection "userState.lockToRoom")
              (u1 := wU Runs.fresh) eq_refl)
    as (Hj & _ & Hr).
  rewrite Hj, Hr. split; reflexivity.
Defined.

Lemma joinSocketToRoom_early_failure_witness :
  evs (joinSocketToRoom Cases.noRoom "s1" "lobby" true Runs.fresh)
    = [Call (C_userState_lockToRoom "lobby" 5000);
       Call (C_state_getRoom "lobby");
       Call (C_lock_dispose "lobby")].
Proof.
  rewrite (proj1 (joinSocketToRoom_early_failure Cases.noRoom "s1" "lobby"
                    true Runs.fresh
                    (lk := "lobby")
                    (u1 := {| Mem.joined := [];
                              Mem.connected := ["s1"; "s2"];
                              Mem.locks := ["lobby"] |})
                    eq_refl)
             (Rejection "state.getRoom") (wS Runs.fresh) eq_refl).
  reflexivity.
Defined.

Lemma joinSocketToRoom_failure_is_silent_witness :
  filter isNotification
    (evs (joinSocketToRoom Runs.noSubscription "s1" "lobby" true Runs.fresh))
    = [].
Proof.
  exact (joinSocketToRoom_failure_is_silent Runs.noSubscription
           "s1" "lobby" true Runs.fresh
           (e := Rejection "transport.joinChannel") eq_refl).
Defined.

Lemma leaveSocketFromRoom_notifications_witness :
  filter isNotification
    (evs (leaveSocketFromRoom Runs.reliable "s1" "lobby" false
                              Runs.oneJoined))
    = [SocketLeftEcho "s1" "lobby" (Some 0%Z) (Some false);
       UserLeftRoomReport "alice" "lobby" (Some true)].
Proof.
  exact (proj1 (leaveSocketFromRoom_notifications Runs.reliable
                  "s1" "lobby" false Runs.oneJoined
                  (lk := "lobby")
                  (u1 := {| Mem.joined := [("s1", "lobby")];
                            Mem.connected := ["s1"; "s2"];
                            Mem.locks := ["lobby"] |})
                  (njoined := 0%Z) (hasChanged := true)
                  (u2 := {| Mem.joined := [];
                            Mem.connected := ["s1"; "s2"];
                            Mem.locks := ["lobby"] |})
                  (info := {| enableUserlistUpdates := Some true |})
                  eq_refl eq_refl eq_refl)).
Defined.

Lemma leaveSocketFromRoom_unsubscribes_witness :
  flat_map channelLeave
    (evs (leaveSocketFromRoom Runs.noDecrement "s1" "lobby" true
                              Runs.oneJoined))
    = [("s1", "lobby")] /\
  Mem.subscribed
    (wT (st (leaveSocketFromRoom Runs.noDecrement "s1" "lobby" true
                                 Runs.oneJoined)))
    = [].
Proof.
  destruct (leaveSocketFromRoom_unsubscribes Runs.noDecrement
              "s1" "lobby" true Runs.oneJoined
              (lk := "lobby")
              (u1 := {| Mem.joined := [("s1", "lobby")];
                        Mem.connected := ["s1"; "s2"];
                        Mem.locks := ["lobby"] |})
              eq_refl)
    as (Hc & Ht & _).
  split; [exact Hc|]. rewrite Ht. reflexivity.
Defined.

Lemma removeUserSocket_no_rooms_witness :
  evs (removeUserSocket Runs.reversed "s2" Runs.oneJoined)
    = [Call (C_userState_removeSocket "s2");
       SocketDisconnectEcho "s2" 1;
       Call (C_state_removeSocket "s2")].
Proof.
  exact (removeUserSocket_no_rooms Runs.reversed "s2" Runs.oneJoined
           (rooms := Some []) (counts := Some []) (nconnected := Some 1%Z)
           (u1 := {| Mem.joined := [("s1", "lobby")];
                     Mem.connected := ["s1"]; Mem.locks := [] |})
           eq_refl eq_refl).
Defined.

Lemma removeUserSocket_no_counts_witness :
  Permutation
    (flat_map leftReport
       (evs (removeUserSocket Cases.noCounts "s1" Runs.threeRooms)))
    ["a"; "b"; "c"].
Proof.
  exact (proj2 (removeUserSocket_no_counts Cases.noCounts "s1"
                  Runs.threeRooms
                  (rooms := ["a"; "b"; "c"]) (nconnected := Some 1%Z)
                  (u1 := {| Mem.joined := [("s2", "b")];
                            Mem.connected := ["s2"]; Mem.locks := [] |})
                  eq_refl
                  (fun n => Permutation_refl (seq 0 n)))).
Defined.

Lemma socketLeaveChannels_tries_all_witness :
  Permutation
    (flat_map channelLeave
       (evs (socketLeaveChannels Runs.noUnsubscribe "s1" ["a"; "b"]
                                 Runs.threeRooms)))
    [("s1", "a"); ("s1", "b")].
Proof.
  exact (proj1 (proj2 (socketLeaveChannels_tries_all Runs.noUnsubscribe
                         "s1" ["a"; "b"] Runs.threeRooms
                         (fun n => Permutation_refl (seq 0 n))))).
Defined.

Lemma channelLeaveSockets_tells_all_witness :
  Permutation
    (flat_map busLeave
       (evs (channelLeaveSockets Runs.reversed "lobby" ["s1"; "s2"]
                                 Cases.bothJoined)))
    [("s1", "lobby"); ("s2", "lobby")].
Proof.
  exact (proj1 (proj2 (channelLeaveSockets_tells_all Runs.reversed
                         "lobby" ["s1"; "s2"] Cases.bothJoined
                         (fun n => Permutation_sym
                                     (Permutation_rev (seq 0 n)))))).
Defined.

Lemma removeFromRoom_outcome_witness :
  res (removeFromRoom Runs.reliable "lobby" Cases.bothJoined) = Ok tt /\
  map fst (flat_map removedReport
             (evs (removeFromRoom Runs.reliable "lobby" Cases.bothJoined)))
    = ["lobby"].
Proof.
  destruct (removeFromRoom_outcome Runs.reliable "lobby" Cases.bothJoined
              (lk := "lobby")
              (u1 := {| Mem.joined := [("s1", "lobby"); ("s2", "lobby")];
                        Mem.connected := ["s1"; "s2"];
                        Mem.locks := ["lobby"] |})
              eq_refl)
    as (Hres & Hev).
  split; [exact Hres|].
  exact (proj1 (proj2 (Hev ["s1"; "s2"]
                         {| Mem.joined := [];
                            Mem.connected := ["s1"; "s2"];
                            Mem.locks := ["lobby"] |}
                         eq_refl
                         (fun n => Permutation_refl (seq 0 n))))).
Defined.

Lemma removeFromRoom_store_failure_witness :
  flat_map busLeave
    (evs (removeFromRoom Cases.noEviction "lobby" Cases.bothJoined)) = [] /\
  flat_map rosterLeave
    (evs (removeFromRoom Cases.noEviction "lobby" Cases.bothJoined))
    = ["lobby"].
Proof.
  destruct (removeFromRoom_store_failure Cases.noEviction "lobby"
              Cases.bothJoined
              (lk := "lobby")
              (u1 := {| Mem.joined := [("s1", "lobby"); ("s2", "lobby")];
                        Mem.connected := ["s1"; "s2"];
                        Mem.locks := ["lobby"] |})
              (e := Rejection "userState.removeAllSocketsFromRoom")
              (u2 := {| Mem.joined := [("s1", "lobby"); ("s2", "lobby")];
                        Mem.connected := ["s1"; "s2"];
                        Mem.locks := ["lobby"] |})
              eq_refl eq_refl)
    as (_ & Hev).
  rewrite Hev. split; reflexivity.
Defined.

Lemma joinSocketToRoom_success_undoes_nothing_witness :
  Forall notUndoing
    (evs (joinSocketToRoom Runs.reliable "s1" "lobby" true Runs.fresh)).
Proof.
  exact (joinSocketToRoom_success_undoes_nothing Runs.reliable
           "s1" "lobby" true Runs.fresh (n := 1%Z) eq_refl).
Defined.

Lemma removeRoomUsers_never_rejects_witness :
  res (removeRoomUsers Runs.reversed Cases.getUser Cases.otherRemoveFromRoom
         "lobby" (Some ["bob"; "carol"; "dave"]) Runs.fresh)
    = Ok [tt; tt; tt] /\
  Permutation
    (flat_map userLookup
       (evs (removeRoomUsers Runs.reversed Cases.getUser
               Cases.otherRemoveFromRoom
               "lobby" (Some ["bob"; "carol"; "dave"]) Runs.fresh)))
    ["bob"; "carol"; "dave"] /\
  flat_map removedReport
    (evs (removeRoomUsers Runs.reversed Cases.getUser
            Cases.otherRemoveFromRoom
            "lobby" (Some ["bob"; "carol"; "dave"]) Runs.fresh))
    = [("lobby", None); ("lobby", None)].
Proof.
  destruct (removeRoomUsers_never_rejects Runs.reversed Cases.getUser
              Cases.otherRemoveFromRoom "lobby"
              (Some ["bob"; "carol"; "dave"]) Runs.fresh)
    as (_ & _ & Hlookup & _).
  split; [reflexivity|split; [|reflexivity]].
  apply Hlookup.
  - intro n. apply Permutation_sym, Permutation_rev.
  - intros user w'. reflexivity.
Defined.
